(** * parse_workouts.py: workbook to JSON and reference lists

    A shallow embedding of [src/xlsx_version/parse_workouts.py] and the
    properties its specification states about it.

    Conventions of the embedding:
    - a Python [str] is a [string]; one [ascii] is one code point below 256,
      and strings compare by code point as Python's do;
    - Python dicts and sets are lists in insertion order: the order the
      interpreter iterates a dict in; a set is only ever added to and sorted,
      and the order it hands its values over does not change what [sorted]
      returns (lemma [sorted_any_order]);
    - an exception is a value of [exn]; fallible steps return [result];
    - the file system is a finite map from path to content; the JSON file is
      held as the document the encoder produces, a markdown file as its text;
    - pandas and the json module are taken by what they deliver: the frames of
      a workbook, and the document of an object. *)

From Stdlib Require Import ZArith QArith.
From Stdlib Require Import DecimalString.
From Stdlib Require OrdersEx.
From stdpp Require Import gmap strings list fin_maps sorting.
From Stdlib Require Import Ascii.

Set Warnings "-register-all".

Local Open Scope Z_scope.
Local Open Scope nat_scope.
Local Open Scope stdpp_scope.

(** ** Strings *)

Module Str.

(** [str.isspace] on one code point below 256: TAB..CR, FS..US, space,
    NEL (0x85) and NBSP (0xA0). *)
Definition isspace (c : ascii) : bool :=
  let n := nat_of_ascii c in
  ((9 <=? n) && (n <=? 13)) || ((28 <=? n) && (n <=? 32))
  || (n =? 133) || (n =? 160).

Fixpoint lstrip (s : string) : string :=
  match s with
  | EmptyString => EmptyString
  | String c r => if isspace c then lstrip r else s
  end.

Fixpoint rstrip (s : string) : string :=
  match s with
  | EmptyString => EmptyString
  | String c r =>
      match rstrip r with
      | EmptyString => if isspace c then EmptyString else String c EmptyString
      | r' => String c r'
      end
  end.

(** [s.strip()] *)
Definition strip (s : string) : string := rstrip (lstrip s).

(** [s.split(sep)] for a one-character separator: never an empty list, a
    separator at either end yields an empty segment there. *)
Fixpoint split (sep : ascii) (s : string) : list string :=
  match s with
  | EmptyString => [EmptyString]
  | String c r =>
      if Ascii.eqb c sep then EmptyString :: split sep r
      else match split sep r with
           | [] => [String c EmptyString]
           | h :: t => String c h :: t
           end
  end.

Definition head (s : string) : option ascii :=
  match s with EmptyString => None | String c _ => Some c end.

Fixpoint last (s : string) : option ascii :=
  match s with
  | EmptyString => None
  | String c EmptyString => Some c
  | String _ r => last r
  end.

Definition space_opt (o : option ascii) : bool :=
  match o with None => false | Some c => isspace c end.

(** No whitespace at either end. *)
Definition trimmed (s : string) : bool :=
  negb (space_opt (head s)) && negb (space_opt (last s)).

(** [sub in s] *)
Fixpoint prefix (p s : string) : bool :=
  match p, s with
  | EmptyString, _ => true
  | String a p', String b s' => Ascii.eqb a b && prefix p' s'
  | String _ _, EmptyString => false
  end.

Fixpoint contains (sub s : string) : bool :=
  prefix sub s ||
  match s with
  | EmptyString => false
  | String _ r => contains sub r
  end.

(** [str(n)] for an int, and [%0<w>d] for a non-negative one. *)
Definition of_Z (z : Z) : string := NilZero.string_of_int (Z.to_int z).
Definition of_nat (n : nat) : string := of_Z (Z.of_nat n).

Fixpoint zeros (n : nat) : string :=
  match n with O => EmptyString | S k => String "0" (zeros k) end.

Definition pad (w : nat) (z : Z) : string :=
  let d := of_Z z in zeros (w - String.length d) +:+ d.

End Str.

(** ** Exceptions *)

Inductive exn : Type := TypeError | ValueError | AttributeError | RecursionError.

Definition result (A : Type) : Type := (exn + A)%type.

Definition ret {A : Type} (a : A) : result A := inr a.
Definition raise {A : Type} (e : exn) : result A := inl e.

Definition bind {A B : Type} (c : result A) (k : A -> result B) : result B :=
  match c with
  | inl e => inl e
  | inr a => k a
  end.

Notation "'try' x <- c ; k" := (bind c (fun x => k))
  (at level 10, x pattern, c at level 100, k at level 200).

(** A loop body run over a list, stopping at the first exception. *)
Definition mapM {A B : Type} (f : A -> result B) : list A -> result (list B) :=
  fix go (l : list A) : result (list B) :=
    match l with
    | [] => ret []
    | a :: l' => try b <- f a; try bs <- go l'; ret (b :: bs)
    end.

Definition foldM {A S : Type} (f : S -> A -> result S) : list A -> S -> result S :=
  fix go (l : list A) (s : S) : result S :=
    match l with
    | [] => ret s
    | a :: l' => try s' <- f s a; go l' s'
    end.

(** ** Python values *)

Record date : Type := Date { year : Z; month : Z; day : Z }.

Record datetime : Type :=
  DateTime { on : date; hour : Z; minute : Z; second : Z; microsecond : Z }.

(** A finite double: its exact value and the text [repr] gives for it. *)
Record pyfloat : Type := PyFloat { fl_val : Q; fl_repr : string }.

(** The scalars a cell can hold once the frame is read: nothing, text, a
    number (a bool counts as one), a date-time or a date. *)
Inductive value : Type :=
  | VNone
  | VBool (b : bool)
  | VInt (z : Z)
  | VFloat (f : pyfloat)
  | VStr (s : string)
  | VDateTime (t : datetime)
  | VDate (d : date).

Inductive pyobj : Type :=
  | PVal (v : value)
  | PList (l : list pyobj)
  | PDict (kv : list (value * pyobj)).

Module Py.

Definition date_isoformat (d : date) : string :=
  Str.pad 4 (year d) +:+ "-" +:+ Str.pad 2 (month d) +:+ "-" +:+ Str.pad 2 (day d).

Definition time_text (t : datetime) : string :=
  Str.pad 2 (hour t) +:+ ":" +:+ Str.pad 2 (minute t) +:+ ":" +:+ Str.pad 2 (second t)
  +:+ (if (microsecond t =? 0)%Z then "" else "." +:+ Str.pad 6 (microsecond t)).

(** [datetime.isoformat(sep)] *)
Definition datetime_format (sep : string) (t : datetime) : string :=
  date_isoformat (on t) +:+ sep +:+ time_text t.

Definition isoformat (t : datetime) : string := datetime_format "T" t.

(** [bool(v)] *)
Definition truthy (v : value) : bool :=
  match v with
  | VNone => false
  | VBool b => b
  | VInt z => negb (z =? 0)%Z
  | VFloat f => negb (Qeq_bool (fl_val f) 0)
  | VStr s => negb (String.eqb s "")
  | VDateTime _ => true
  | VDate _ => true
  end.

(** The number a bool, int or float stands for in a comparison. *)
Definition num (v : value) : option Q :=
  match v with
  | VBool b => Some (inject_Z (if b then 1 else 0))
  | VInt z => Some (inject_Z z)
  | VFloat f => Some (fl_val f)
  | _ => None
  end.

Definition date_key (d : date) : list Z := [year d; month d; day d].
Definition datetime_key (t : datetime) : list Z :=
  date_key (on t) ++ [hour t; minute t; second t; microsecond t].

Fixpoint key_eqb (a b : list Z) : bool :=
  match a, b with
  | [], [] => true
  | x :: a', y :: b' => (x =? y)%Z && key_eqb a' b'
  | _, _ => false
  end.

Fixpoint key_ltb (a b : list Z) : bool :=
  match a, b with
  | x :: a', y :: b' => (x <? y)%Z || ((x =? y)%Z && key_ltb a' b')
  | [], _ :: _ => true
  | _, [] => false
  end.

(** [v == w]: numbers compare by value across bool, int and float. *)
Definition eqb (v w : value) : bool :=
  match num v, num w with
  | Some a, Some b => Qeq_bool a b
  | _, _ =>
      match v, w with
      | VNone, VNone => true
      | VStr s, VStr t => String.eqb s t
      | VDateTime s, VDateTime t => key_eqb (datetime_key s) (datetime_key t)
      | VDate s, VDate t => key_eqb (date_key s) (date_key t)
      | _, _ => false
      end
  end.

(** [v < w]: [TypeError] between values of different kinds. *)
Definition ltb (v w : value) : result bool :=
  match num v, num w with
  | Some a, Some b => ret (negb (Qle_bool b a))
  | _, _ =>
      match v, w with
      | VStr s, VStr t => ret (String.ltb s t)
      | VDateTime s, VDateTime t => ret (key_ltb (datetime_key s) (datetime_key t))
      | VDate s, VDate t => ret (key_ltb (date_key s) (date_key t))
      | _, _ => raise TypeError
      end
  end.

(** [str(v)], what an f-string writes for [{v}]. *)
Definition str (v : value) : string :=
  match v with
  | VNone => "None"
  | VBool b => if b then "True" else "False"
  | VInt z => Str.of_Z z
  | VFloat f => fl_repr f
  | VStr s => s
  | VDateTime t => datetime_format " " t
  | VDate d => date_isoformat d
  end.

Definition is_str (v : value) : bool :=
  match v with VStr _ => true | _ => false end.

(** [set.add]: the set keeps the element it already holds. *)
Definition set_add (s : list value) (v : value) : list value :=
  if existsb (eqb v) s then s else s ++ [v].

Fixpoint insert_sorted (v : value) (l : list value) : result (list value) :=
  match l with
  | [] => ret [v]
  | w :: l' =>
      try lt <- ltb v w;
      if lt then ret (v :: l)
      else try r <- insert_sorted v l'; ret (w :: r)
  end.

(** [sorted(s)]: only [<] is used, and an unorderable pair raises. For values
    that [<] orders totally the result does not depend on the algorithm. *)
Fixpoint sorted (l : list value) : result (list value) :=
  match l with
  | [] => ret []
  | v :: l' => try r <- sorted l'; insert_sorted v r
  end.

(** A dict with [str] keys, in insertion order. *)
Definition dict (V : Type) : Type := list (string * V).

(** [k in d and d[k]] reads through [get]. *)
Fixpoint get {V : Type} (k : string) (d : dict V) : option V :=
  match d with
  | [] => None
  | (k', v) :: d' => if String.eqb k k' then Some v else get k d'
  end.

(** [d[k] = v]: a key already present keeps its place. *)
Fixpoint set {V : Type} (k : string) (v : V) (d : dict V) : dict V :=
  match d with
  | [] => [(k, v)]
  | (k', v') :: d' =>
      if String.eqb k k' then (k, v) :: d' else (k', v') :: set k v d'
  end.

End Py.

(** ** The JSON encoder *)

Inductive json : Type :=
  | JNull
  | JBool (b : bool)
  | JInt (z : Z)
  | JFloat (f : pyfloat)
  | JString (s : string)
  | JArray (items : list json)
  | JObject (members : list (string * json)).

Global Instance date_eq_dec : EqDecision date.
Proof. solve_decision. Defined.
Global Instance datetime_eq_dec : EqDecision datetime.
Proof. solve_decision. Defined.
Global Instance Q_eq_dec : EqDecision Q.
Proof. solve_decision. Defined.
Global Instance pyfloat_eq_dec : EqDecision pyfloat.
Proof. solve_decision. Defined.
Global Instance value_eq_dec : EqDecision value.
Proof. solve_decision. Defined.

Module Json.

(** [a is b], as far as values can tell: the same structure throughout. *)
Fixpoint same (a b : pyobj) : bool :=
  match a, b with
  | PVal v, PVal w => bool_decide (v = w)
  | PList l, PList m =>
      (fix go (l m : list pyobj) : bool :=
         match l, m with
         | [], [] => true
         | x :: l', y :: m' => same x y && go l' m'
         | _, _ => false
         end) l m
  | PDict l, PDict m =>
      (fix go (l m : list (value * pyobj)) : bool :=
         match l, m with
         | [], [] => true
         | (k, x) :: l', (k', y) :: m' =>
             bool_decide (k = k') && same x y && go l' m'
         | _, _ => false
         end) l m
  | _, _ => false
  end.

(** A dict key as the encoder writes it; other key types are refused. *)
Definition key (k : value) : result string :=
  match k with
  | VStr s => ret s
  | VNone => ret "null"
  | VBool b => ret (if b then "true" else "false")
  | VInt z => ret (Str.of_Z z)
  | VFloat f => ret (fl_repr f)
  | _ => raise TypeError
  end.

(** The encoder of [json.dump(obj, fp, default=hook)], up to the document it
    produces. An object the encoder does not know goes through [hook] and the
    result is encoded in its place; a hook that hands back the object it was
    given is reported as a circular reference. [fuel] bounds how often the
    hook may be applied in a row. *)
Fixpoint encode (hook : pyobj -> result pyobj) (fuel : nat) : pyobj -> result json :=
  fix go (o : pyobj) : result json :=
    match o with
    | PVal VNone => ret JNull
    | PVal (VBool b) => ret (JBool b)
    | PVal (VInt z) => ret (JInt z)
    | PVal (VFloat f) => ret (JFloat f)
    | PVal (VStr s) => ret (JString s)
    | PList l => try items <- mapM go l; ret (JArray items)
    | PDict kv =>
        try members <-
          mapM (fun p => match p with
                         | (k, v) => try s <- key k; try j <- go v; ret (s, j)
                         end) kv;
        ret (JObject members)
    | PVal (VDateTime _) | PVal (VDate _) =>
        match fuel with
        | O => raise RecursionError
        | S fuel' =>
            try o' <- hook o;
            if same o' o then raise ValueError else encode hook fuel' o'
        end
    end.


(** How often the hook may be applied in a row before the interpreter's
    recursion limit ends the encoding. *)
Definition hook_limit : nat := 1000.

(** [json.dump(obj, f, indent=2, default=hook)] *)
Definition dump (hook : pyobj -> pyobj) (o : pyobj) : result json :=
  encode (fun x => ret (hook x)) hook_limit o.

End Json.

(** ** The program *)

(** [convert_for_json] *)
Definition convert_for_json (obj : pyobj) : pyobj :=
  match obj with
  | PVal (VDateTime t) => PVal (VStr (Py.isoformat t))
  | PVal (VDate d) => PVal (VStr (Py.date_isoformat d))
  | _ => obj
  end.

(** A cell of a sheet as [pd.read_excel] delivers it: NaN where the sheet has
    nothing, a value otherwise. *)
Inductive cell : Type :=
  | NaN
  | Cell (v : value).

(** A sheet read into a frame: its rows, each from column label to cell. *)
Definition frame : Type := list (Py.dict cell).

(** An open workbook: its sheets by name, in the workbook's order. *)
Definition excel : Type := list (string * frame).

(** [xl.sheet_names] *)
Definition sheet_names (xl : excel) : list string := map fst xl.

(** [pd.read_excel(xl, sheet_name=sheet_name)] *)
Definition read_excel (xl : excel) (sheet_name : string) : frame :=
  default [] (Py.get sheet_name xl).

(** [pd.notna] *)
Definition notna (c : cell) : bool :=
  match c with
  | NaN | Cell VNone => false
  | Cell _ => true
  end.

(** One cell of [df.where(pd.notna(df), None)]: as the comment in the source
    says, the cells that are NaN become [None]. *)
Definition where_notna (c : cell) : value :=
  match c with
  | Cell v => if notna c then v else VNone
  | NaN => VNone
  end.

(** A record of [to_dict(orient='records')]: column label to value. *)
Definition row : Type := Py.dict value.

(** [df.where(pd.notna(df), None).to_dict(orient='records')] *)
Definition to_records (df : frame) : list row :=
  map (fun r => map (fun lc => (fst lc, where_notna (snd lc))) r) df.

(** The loop over [xl.sheet_names] that fills [sheets_data]. *)
Definition read_sheets (xl : excel) : Py.dict (list row) :=
  fold_left
    (fun sheets_data sheet_name =>
       Py.set sheet_name (to_records (read_excel xl sheet_name)) sheets_data)
    (sheet_names xl) [].

(** A record as an object. *)
Definition row_obj (r : row) : pyobj :=
  PDict (map (fun kv => (VStr (fst kv), PVal (snd kv))) r).

(** [sheets_data] as the object handed to [json.dump]. *)
Definition sheets_obj (sheets_data : Py.dict (list row)) : pyobj :=
  PDict (map (fun kv => (VStr (fst kv), PList (map row_obj (snd kv)))) sheets_data).

(** The four sets the extraction fills. *)
Record refs : Type := Refs {
  main_movements : list value;
  accessory_movements : list value;
  workout_formats : list value;
  intensity_levels : list value
}.

(** [if col in row and row[col]: s.add(row[col])] *)
Definition add_whole (col : string) (s : list value) (r : row) : list value :=
  match Py.get col r with
  | Some v => if Py.truthy v then Py.set_add s v else s
  | None => s
  end.

(** [v.split(',')]: only a [str] has the method. *)
Definition split_commas (v : value) : result (list string) :=
  match v with
  | VStr s => ret (Str.split "," s)
  | _ => raise AttributeError
  end.

(** [if col in row and row[col]:
       for movement in row[col].split(','): s.add(movement.strip())] *)
Definition add_split (col : string) (s : list value) (r : row) : result (list value) :=
  match Py.get col r with
  | Some v =>
      if Py.truthy v then
        try parts <- split_commas v;
        ret (fold_left (fun s movement => Py.set_add s (VStr (Str.strip movement))) parts s)
      else ret s
  | None => ret s
  end.

(** The body of the loop over rows. *)
Definition scan_row (acc : refs) (r : row) : result refs :=
  let main := add_whole "Unnamed: 3" (main_movements acc) r in
  try accessory <- add_split "Unnamed: 5" (accessory_movements acc) r;
  try accessory <- add_split "Unnamed: 9" accessory r;
  let formats := add_whole "Unnamed: 8" (workout_formats acc) r in
  let levels := add_whole "Unnamed: 7" (intensity_levels acc) r in
  ret (Refs main accessory formats levels).

(** The loop over [sheets_data.items()] and over each sheet's rows. *)
Definition extract (sheets_data : Py.dict (list row)) : result refs :=
  foldM (fun acc kv => foldM scan_row (snd kv) acc) sheets_data (Refs [] [] [] []).

(** *** Files and output *)

(** What a file holds: text, a JSON document, or the beginning of one that
    the encoder gave up on. *)
Inductive content : Type :=
  | Text (s : string)
  | Document (doc : json)
  | BrokenDocument.

(** What the program reads and writes. Opening a file for writing and
    writing to it succeed: failures of the file system are no part of the
    program's design. *)
Record world : Type := World {
  xlsx : option excel;             (* workouts.xlsx as pandas reads it, if it exists *)
  files : gmap string content;     (* every other file, by path *)
  dirs : gset string;              (* the directories made *)
  stdout : list string             (* one entry per [print] *)
}.

(** The newline character. *)
Definition nl : string := String "010" EmptyString.

(** A step of the program: it changes the world and returns or raises. *)
Definition io (A : Type) : Type := world -> world * result A.

Definition io_ret {A : Type} (a : A) : io A := fun w => (w, ret a).

(** One step after another; an exception ends the sequence. *)
Definition io_bind {A B : Type} (c : io A) (k : A -> io B) : io B :=
  fun w =>
    match c w with
    | (w', inl e) => (w', inl e)
    | (w', inr a) => k a w'
    end.

Notation "'run' x <- c ; k" := (io_bind c (fun x => k))
  (at level 10, x pattern, c at level 100, k at level 200).

(** [print(line)] *)
Definition print (line : string) : io unit :=
  fun w => (World (xlsx w) (files w) (dirs w) (stdout w ++ [line]), ret tt).

(** The file at [path] replaced by [c], or created with it. *)
Definition put (path : string) (c : content) (w : world) : world :=
  World (xlsx w) (<[path := c]> (files w)) (dirs w) (stdout w).

(** [with open(path, 'w') as f: ...]: the text written before the block ends
    or raises is in the file. *)
Definition with_open (path : string) (body : string * result unit) : io unit :=
  fun w => (put path (Text (fst body)) w, snd body).

(** [docs_dir.mkdir(exist_ok=True)]: the directory is there afterwards. *)
Definition mkdir (path : string) : io unit :=
  fun w => (World (xlsx w) (files w) ({[path]} ∪ dirs w) (stdout w), ret tt).

(** [with open(output_path, 'w') as f: json.dump(...)] *)
Definition dump_to (path : string) (encoded : result json) : io unit :=
  fun w =>
    match encoded with
    | inl e => (put path BrokenDocument w, inl e)
    | inr doc => (put path (Document doc) w, ret tt)
    end.

(** A computation that touches no file. *)
Definition lift {A : Type} (c : result A) : io A := fun w => (w, c).

(** [for a in l: body] *)
Fixpoint for_each {A : Type} (l : list A) (body : A -> io unit) : io unit :=
  match l with
  | [] => io_ret tt
  | a :: l' => run _ <- body a; for_each l' body
  end.

(** [for x in items: f.write(f"- {x}\n")] *)
Definition bullets (items : list value) : string :=
  String.concat "" (map (fun x => "- " +:+ Py.str x +:+ nl) items).

(** The block that writes movements.md. *)
Definition movements_md (main accessory : list value) : string * result unit :=
  let text := "# Movements Reference" +:+ nl +:+ nl in
  let text := text +:+ "## Main Movements" +:+ nl in
  match Py.sorted main with
  | inl e => (text, inl e)
  | inr ms =>
      let text := text +:+ bullets ms in
      let text := text +:+ nl +:+ "## Accessory/Finisher Movements" +:+ nl in
      match Py.sorted accessory with
      | inl e => (text, inl e)
      | inr accs => (text +:+ bullets accs, ret tt)
      end
  end.

(** The blocks that write workout_formats.md and intensity_levels.md. *)
Definition reference_md (title : string) (items : list value) : string * result unit :=
  let text := title +:+ nl +:+ nl in
  match Py.sorted items with
  | inl e => (text, inl e)
  | inr sorted_items => (text +:+ bullets sorted_items, ret tt)
  end.

Definition excel_path : string := "workouts.xlsx".
Definition output_path : string := "workouts_data.json".
Definition docs_dir : string := "../docs".
Definition movements_path : string := "../docs/movements.md".
Definition formats_path : string := "../docs/workout_formats.md".
Definition levels_path : string := "../docs/intensity_levels.md".

(** [parse_workouts_excel] *)
Definition parse_workouts_excel : io unit :=
  fun w =>
    match xlsx w with
    | None => print ("Error: " +:+ excel_path +:+ " not found!") w
    | Some xl =>
        (let sheets_data := read_sheets xl in
         run _ <- dump_to output_path (Json.dump convert_for_json (sheets_obj sheets_data));
         run _ <- print ("Successfully parsed Excel file and saved to " +:+ output_path);
         run _ <- print (nl +:+ "Sheet contents summary:");
         run _ <- for_each sheets_data (fun kv =>
               print (fst kv +:+ ": " +:+ Str.of_nat (length (snd kv)) +:+ " rows"));
         run found <- lift (extract sheets_data);
         run _ <- mkdir docs_dir;
         run _ <- with_open movements_path
               (movements_md (main_movements found) (accessory_movements found));
         run _ <- with_open formats_path
               (reference_md "# Workout Formats Reference" (workout_formats found));
         run _ <- with_open levels_path
               (reference_md "# Intensity Levels Reference" (intensity_levels found));
         print (nl +:+ "Extracted data saved to markdown files in docs/")) w
    end.

(** The files the program writes. *)
Definition outputs : list string :=
  [output_path; movements_path; formats_path; levels_path].

(** Sample worlds and workbooks. *)
Definition no_files : world := World None ∅ ∅ [].

Definition with_workbook (xl : excel) : world := World (Some xl) ∅ ∅ [].

Definition demo : excel :=
  [("Week 1",
    [[("Day", Cell (VStr "Mon")); ("Unnamed: 3", Cell (VStr "Squat"));
      ("Unnamed: 5", Cell (VStr "Push-ups, Burpees")); ("Unnamed: 7", NaN);
      ("Unnamed: 8", Cell (VStr "AMRAP"));
      ("When", Cell (VDateTime (DateTime (Date 2024 3 5) 7 30 0 0)))];
     [("Day", Cell (VStr "Tue")); ("Unnamed: 3", Cell (VStr "Deadlift"));
      ("Unnamed: 5", NaN); ("Unnamed: 7", Cell (VStr "Heavy"));
      ("Unnamed: 8", Cell (VStr "AMRAP"));
      ("When", NaN)]])].

(** ** Notions the properties are stated with *)

(** No two elements are equal in Python's sense. *)
Fixpoint distinct (l : list value) : Prop :=
  match l with
  | [] => True
  | x :: l' => Forall (fun y => Py.eqb x y = false) l' /\ distinct l'
  end.

(** What one row offers a set that takes cells whole. *)
Definition whole (col : string) (r : row) : list value :=
  match Py.get col r with
  | Some v => if Py.truthy v then [v] else []
  | None => []
  end.

(** What one row offers a set that takes the stripped pieces of a cell. *)
Definition pieces (col : string) (r : row) : result (list value) :=
  match Py.get col r with
  | Some v =>
      if Py.truthy v then
        try parts <- split_commas v;
        ret (map (fun movement => VStr (Str.strip movement)) parts)
      else ret []
  | None => ret []
  end.

Definition row_pieces (r : row) : result (list value) :=
  try p5 <- pieces "Unnamed: 5" r;
  try p9 <- pieces "Unnamed: 9" r;
  ret (p5 ++ p9).

(** All rows of all sheets, in the order the loops visit them. *)
Definition rows_of (sheets_data : Py.dict (list row)) : list row :=
  concat (map snd sheets_data).

Definition add_all (l s : list value) : list value := fold_left Py.set_add l s.

(** A cell whose pieces are taken: a non-empty [str]. *)
Definition piece_of (col : string) (r : row) (x : value) : Prop :=
  exists s seg, Py.get col r = Some (VStr s) /\ s <> "" /\
                seg ∈ Str.split "," s /\ x = VStr (Str.strip seg).

(** The cell can be split: it is absent, falsy or a [str]. *)
Definition splittable (col : string) (r : row) : bool :=
  match Py.get col r with
  | Some v => negb (Py.truthy v) || Py.is_str v
  | None => true
  end.

Definition row_ok (r : row) : bool :=
  splittable "Unnamed: 5" r && splittable "Unnamed: 9" r.

(** The column labels the extraction reads. *)
Definition reference_columns : list string :=
  ["Unnamed: 3"; "Unnamed: 5"; "Unnamed: 9"; "Unnamed: 8"; "Unnamed: 7"].

(** What a row shows in the given columns. *)
Definition view (cols : list string) (r : row) : list (option value) :=
  map (fun c => Py.get c r) cols.

(** Two sheet collections that differ at most outside the given columns. *)
Definition agree_on (cols : list string) (sd sd' : Py.dict (list row)) : Prop :=
  map (view cols) (rows_of sd) = map (view cols) (rows_of sd').

(** Every reference column of the row holds text or nothing. *)
Definition text_row (r : row) : bool :=
  forallb (fun col => splittable col r) reference_columns.

Definition text_columns (sheets_data : Py.dict (list row)) : bool :=
  forallb text_row (rows_of sheets_data).

(** Sample workbooks. *)
Definition padded_main : excel :=
  [("Sheet1", [[("Unnamed: 3", Cell (VStr " Squat "))]])].

Definition accessory_pair : excel :=
  [("Sheet1", [[("Unnamed: 3", Cell (VStr "Clean, Jerk"));
                ("Unnamed: 5", Cell (VStr "Push-ups, Burpees"))]])].



Definition one_cell (col : string) : Py.dict (list row) :=
  [("Sheet1", [[(col, VStr "x")]])].

Definition empty_row : Py.dict (list row) := [("Sheet1", [[]])].

(** Induction over nested objects. *)
Section pyobj_induction.

Variable P : pyobj -> Prop.
Hypothesis Hval : forall v, P (PVal v).
Hypothesis Hlist : forall l, Forall P l -> P (PList l).
Hypothesis Hdict : forall kv, Forall (fun p => P (snd p)) kv -> P (PDict kv).


End pyobj_induction.




(** The document of a value that is no date: the value itself. *)
Definition json_of_plain (v : value) : json :=
  match v with
  | VBool b => JBool b
  | VInt z => JInt z
  | VFloat f => JFloat f
  | VStr s => JString s
  | _ => JNull
  end.

(** The document of a cell value. *)
Definition json_of_value (v : value) : json :=
  match v with
  | VDateTime t => JString (Py.isoformat t)
  | VDate d => JString (Py.date_isoformat d)
  | _ => json_of_plain v
  end.

Definition json_of_row (r : row) : json :=
  JObject (map (fun kv => (fst kv, json_of_value (snd kv))) r).

Definition json_of_sheets (sheets_data : Py.dict (list row)) : json :=
  JObject (map (fun kv => (fst kv, JArray (map json_of_row (snd kv)))) sheets_data).


(** A step that leaves the file at [p] as it is. *)
Definition keeps {A : Type} (p : string) (c : io A) : Prop :=
  forall w, files (fst (c w)) !! p = files w !! p.

(** Lexicographic order on text, by code point. *)
Definition before (a b : string) : Prop := String.ltb a b = true.

(** [l] lists the texts of the set [s], each once, in ascending order. *)
Definition lists_sorted (l : list string) (s : list value) : Prop :=
  map VStr l ≡ₚ s /\ StronglySorted before l.

(** The bullet lines of a list of texts. *)
Definition bullet_lines (l : list string) : string :=
  String.concat "" (map (fun x => "- " +:+ x +:+ nl) l).

(** The world with more files, directories and earlier output around it. *)
Definition extend (w : world) (fs : gmap string content) (ds : gset string)
           (out : list string) : world :=
  World (xlsx w) (files w ∪ fs) (dirs w ∪ ds) (out ++ stdout w).

(** A step that neither reads nor depends on what else the world holds: it
    does in a larger world what it does in the smaller one. *)
Definition framed {A : Type} (c : io A) : Prop :=
  forall w fs ds out,
    xlsx (fst (c w)) = xlsx w /\
    c (extend w fs ds out) = (extend (fst (c w)) fs ds out, snd (c w)).

(** The world in which only the workbook exists. *)
Definition bare (w : world) : world := World (xlsx w) ∅ ∅ [].

(** [b] is not below [a] in Python's order. *)
Definition not_after (a b : value) : Prop := Py.ltb b a = ret false.

(** [l] lists the values of the set [s], each once, ascending in Python's
    order. *)
Definition lists_ascending (l s : list value) : Prop :=
  l ≡ₚ s /\ Sorted not_after l.


(** The kinds of value that [<] keeps apart. *)
Inductive kind : Type := KNone | KNumber | KText | KDateTime | KDate.

Definition kind_of (v : value) : kind :=
  match v with
  | VNone => KNone
  | VBool _ | VInt _ | VFloat _ => KNumber
  | VStr _ => KText
  | VDateTime _ => KDateTime
  | VDate _ => KDate
  end.

(** [a < b] holds. *)
Definition below (a b : value) : Prop := Py.ltb a b = ret true.

(** At most one value, or values of one kind that has an order. *)
Definition orderable (s : list value) : Prop :=
  length s <= 1 \/ exists k, k <> KNone /\ Forall (fun v => kind_of v = k) s.




Definition mixed_formats : excel :=
  [("Sheet1", [[("Unnamed: 3", Cell (VStr "Squat")); ("Unnamed: 8", Cell (VStr "AMRAP"))];
               [("Unnamed: 8", Cell (VInt 3))]])].

(** [c in s] for one character. *)
Fixpoint has_char (c : ascii) (s : string) : bool :=
  match s with
  | EmptyString => false
  | String a r => Ascii.eqb a c || has_char c r
  end.

(** Nothing but whitespace, if anything at all. *)
Fixpoint blank (s : string) : bool :=
  match s with
  | EmptyString => true
  | String a r => Str.isspace a && blank r
  end.

Definition trailing_comma : excel :=
  [("Sheet1", [[("Unnamed: 5", Cell (VStr "Push-ups,"))]])].




(** * Properties *)

(** ** The model on small inputs *)

Example strip_ex : Str.strip "  Push-ups " = "Push-ups".
Proof. reflexivity. Qed.

Example split_ex : Str.split "," "Push-ups, Burpees" = ["Push-ups"; " Burpees"].
Proof. reflexivity. Qed.

Example split_edge : Str.split "," "a,,b," = ["a"; ""; "b"; ""].
Proof. reflexivity. Qed.

Example pad_ex : Str.pad 2 7 = "07" /\ Str.pad 4 2024 = "2024" /\ Str.of_Z (-5) = "-5".
Proof. repeat split; reflexivity. Qed.

Example sorted_words :
  Py.sorted [VStr "Squat"; VStr "Deadlift"] = ret [VStr "Deadlift"; VStr "Squat"].
Proof. reflexivity. Qed.

Example sorted_numbers :
  Py.sorted [VInt 10; VInt 9] = ret [VInt 9; VInt 10].
Proof. reflexivity. Qed.

Example sorted_mixed : Py.sorted [VInt 10; VStr "Squat"] = raise TypeError.
Proof. reflexivity. Qed.

Example set_add_number :
  Py.set_add [VInt 1] (VBool true) = [VInt 1].
Proof. reflexivity. Qed.

Example isoformat_ex :
  Py.isoformat (DateTime (Date 2024 3 5) 7 30 0 0) = "2024-03-05T07:30:00".
Proof. reflexivity. Qed.

(** ** Strings *)

Section strings.

Lemma lstrip_head (s : string) : Str.space_opt (Str.head (Str.lstrip s)) = false.
Proof.
  induction s as [|c r IH]; simpl; [reflexivity|].
  destruct (Str.isspace c) eqn:Hc; [exact IH|]. simpl. exact Hc.
Qed.

Lemma rstrip_head (s : string) :
  Str.space_opt (Str.head s) = false ->
  Str.space_opt (Str.head (Str.rstrip s)) = false.
Proof.
  destruct s as [|c r]; simpl; [reflexivity|].
  intros Hc. destruct (Str.rstrip r); simpl; [|exact Hc].
  rewrite Hc. simpl. exact Hc.
Qed.

Lemma rstrip_last (s : string) : Str.space_opt (Str.last (Str.rstrip s)) = false.
Proof.
  induction s as [|c r IH]; simpl; [reflexivity|].
  destruct (Str.rstrip r) as [|d r'] eqn:Hr.
  - destruct (Str.isspace c) eqn:Hc; simpl; [reflexivity|exact Hc].
  - exact IH.
Qed.

(** What [strip] returns has no whitespace at either end. *)
Lemma strip_trimmed (s : string) : Str.trimmed (Str.strip s) = true.
Proof.
  unfold Str.trimmed, Str.strip.
  rewrite rstrip_head by apply lstrip_head.
  rewrite rstrip_last. reflexivity.
Qed.

Lemma split_nonempty (sep : ascii) (s : string) : Str.split sep s <> [].
Proof.
  destruct s as [|c r]; simpl; [discriminate|].
  destruct (Ascii.eqb c sep); [discriminate|].
  destruct (Str.split sep r); discriminate.
Qed.

Lemma compare_ltb_asym (a b : string) :
  String.ltb a b = true -> String.ltb b a = false.
Proof.
  unfold String.ltb. rewrite (String.compare_antisym a b).
  destruct (String.compare b a); simpl; congruence.
Qed.

End strings.

(** ** Equality and sets of values *)

Section values.

Lemma key_eqb_refl (k : list Z) : Py.key_eqb k k = true.
Proof. induction k as [|x k IH]; simpl; [reflexivity|]. rewrite Z.eqb_refl. exact IH. Qed.

Lemma key_eqb_sym (a b : list Z) : Py.key_eqb a b = Py.key_eqb b a.
Proof.
  revert b. induction a as [|x a IH]; intros [|y b]; simpl; try reflexivity.
  rewrite (Z.eqb_sym x y), IH. reflexivity.
Qed.

Lemma Qeq_bool_comm (a b : Q) : Qeq_bool a b = Qeq_bool b a.
Proof.
  destruct (Qeq_bool a b) eqn:Hab; symmetry.
  - apply Qeq_bool_iff. symmetry. apply Qeq_bool_iff. exact Hab.
  - destruct (Qeq_bool b a) eqn:Hba; [|reflexivity].
    apply Qeq_bool_iff in Hba. symmetry in Hba. apply Qeq_bool_iff in Hba. congruence.
Qed.

Lemma eqb_refl (v : value) : Py.eqb v v = true.
Proof.
  destruct v as [|b|z|f|s|t|d]; unfold Py.eqb; simpl;
    try reflexivity; try (apply Qeq_bool_iff; reflexivity).
  - apply String.eqb_refl.
  - apply (key_eqb_refl (Py.datetime_key t)).
  - apply (key_eqb_refl (Py.date_key d)).
Qed.

Lemma eqb_sym (v w : value) : Py.eqb v w = Py.eqb w v.
Proof.
  destruct v, w; unfold Py.eqb; simpl; try reflexivity;
    try apply Qeq_bool_comm.
  - apply String.eqb_sym.
  - apply (key_eqb_sym (Py.datetime_key _) (Py.datetime_key _)).
  - apply (key_eqb_sym (Py.date_key _) (Py.date_key _)).
Qed.

(** Only the same text equals a [str]. *)
Lemma eqb_str (v : value) (s : string) : Py.eqb v (VStr s) = true -> v = VStr s.
Proof.
  destruct v; unfold Py.eqb; simpl; try discriminate.
  intros H. apply String.eqb_eq in H. congruence.
Qed.

Lemma distinct_snoc (s : list value) (v : value) :
  distinct s -> Forall (fun y => Py.eqb y v = false) s -> distinct (s ++ [v]).
Proof.
  induction s as [|x s IH]; simpl; intros Hd Hv.
  - split; [constructor|exact I].
  - destruct Hd as [Hx Hd]. inversion Hv as [|? ? Hxv Hsv]; subst. split.
    + apply Forall_app. split; [exact Hx|]. constructor; [exact Hxv|constructor].
    + apply IH; assumption.
Qed.

Lemma distinct_NoDup (l : list value) : distinct l -> NoDup l.
Proof.
  induction l as [|x l IH]; simpl; intros Hd; [constructor|].
  destruct Hd as [Hx Hd]. constructor; [|apply IH; exact Hd].
  intros Hin. rewrite Forall_forall in Hx. specialize (Hx x Hin).
  rewrite eqb_refl in Hx. discriminate.
Qed.

Lemma existsb_eqb_false (v : value) (s : list value) :
  existsb (Py.eqb v) s = false -> Forall (fun y => Py.eqb y v = false) s.
Proof.
  induction s as [|x s IH]; simpl; intros H; [constructor|].
  apply orb_false_iff in H. destruct H as [Hx Hs].
  constructor; [rewrite eqb_sym; exact Hx|apply IH; exact Hs].
Qed.

Lemma existsb_eqb_true (v : value) (s : list value) :
  existsb (Py.eqb v) s = true -> exists e, e ∈ s /\ Py.eqb e v = true.
Proof.
  induction s as [|x s IH]; simpl; intros H; [discriminate|].
  apply orb_true_iff in H. destruct H as [Hx|Hs].
  - exists x. split; [left|rewrite eqb_sym; exact Hx].
  - destruct (IH Hs) as (e & He & Hev). exists e. split; [right; exact He|exact Hev].
Qed.

Lemma set_add_distinct (s : list value) (v : value) :
  distinct s -> distinct (Py.set_add s v).
Proof.
  intros Hd. unfold Py.set_add.
  destruct (existsb (Py.eqb v) s) eqn:He; [exact Hd|].
  apply distinct_snoc; [exact Hd|apply existsb_eqb_false; exact He].
Qed.

Lemma set_add_keeps (s : list value) (v x : value) : x ∈ s -> x ∈ Py.set_add s v.
Proof.
  intros Hx. unfold Py.set_add. destruct (existsb (Py.eqb v) s); [exact Hx|].
  apply elem_of_app. left. exact Hx.
Qed.

Lemma set_add_from (s : list value) (v x : value) :
  x ∈ Py.set_add s v -> x ∈ s \/ x = v.
Proof.
  unfold Py.set_add. destruct (existsb (Py.eqb v) s); [left; assumption|].
  intros Hx. apply elem_of_app in Hx. destruct Hx as [Hx|Hx]; [left; exact Hx|].
  right. apply list_elem_of_singleton in Hx. exact Hx.
Qed.

(** After [s.add(v)] the set holds an element equal to [v]. *)
Lemma set_add_holds (s : list value) (v : value) :
  exists e, e ∈ Py.set_add s v /\ Py.eqb e v = true.
Proof.
  unfold Py.set_add. destruct (existsb (Py.eqb v) s) eqn:He.
  - apply existsb_eqb_true. exact He.
  - exists v. split; [|apply eqb_refl].
    apply elem_of_app. right. apply list_elem_of_singleton. reflexivity.
Qed.

Lemma add_all_distinct (l s : list value) :
  distinct s -> distinct (fold_left Py.set_add l s).
Proof.
  revert s. induction l as [|v l IH]; simpl; intros s Hd; [exact Hd|].
  apply IH. apply set_add_distinct. exact Hd.
Qed.

Lemma add_all_keeps (l s : list value) (x : value) :
  x ∈ s -> x ∈ fold_left Py.set_add l s.
Proof.
  revert s. induction l as [|v l IH]; simpl; intros s Hx; [exact Hx|].
  apply IH. apply set_add_keeps. exact Hx.
Qed.

Lemma add_all_from (l s : list value) (x : value) :
  x ∈ fold_left Py.set_add l s -> x ∈ s \/ x ∈ l.
Proof.
  revert s. induction l as [|v l IH]; simpl; intros s Hx; [left; exact Hx|].
  destruct (IH _ Hx) as [H|H].
  - destruct (set_add_from _ _ _ H) as [H'|H']; [left; exact H'|].
    right. subst. left.
  - right. right. exact H.
Qed.

Lemma add_all_holds (l s : list value) (v : value) :
  v ∈ l -> exists e, e ∈ fold_left Py.set_add l s /\ Py.eqb e v = true.
Proof.
  revert s. induction l as [|x l IH]; intros s Hv; [inversion Hv|].
  simpl. apply elem_of_cons in Hv. destruct Hv as [->|Hv].
  - destruct (set_add_holds s x) as (e & He & Hex).
    exists e. split; [apply add_all_keeps; exact He|exact Hex].
  - apply IH. exact Hv.
Qed.

End values.

(** ** The extraction in closed form *)

Section extraction.

Lemma add_whole_fold (col : string) (s : list value) (r : row) :
  add_whole col s r = add_all (whole col r) s.
Proof.
  unfold add_whole, whole, add_all.
  destruct (Py.get col r) as [v|]; [|reflexivity].
  destruct (Py.truthy v); reflexivity.
Qed.

Lemma fold_add_map (f : string -> value) (parts : list string) (s : list value) :
  fold_left (fun s m => Py.set_add s (f m)) parts s = add_all (map f parts) s.
Proof.
  revert s. induction parts as [|p parts IH]; intros s; simpl; [reflexivity|].
  apply IH.
Qed.

Lemma add_split_fold (col : string) (s : list value) (r : row) :
  add_split col s r = try ps <- pieces col r; ret (add_all ps s).
Proof.
  unfold add_split, pieces.
  destruct (Py.get col r) as [v|]; [|reflexivity].
  destruct (Py.truthy v); [|reflexivity].
  destruct (split_commas v) as [e|parts]; simpl; [reflexivity|].
  rewrite fold_add_map. reflexivity.
Qed.

Lemma add_all_app (l1 l2 s : list value) :
  add_all (l1 ++ l2) s = add_all l2 (add_all l1 s).
Proof. unfold add_all. apply fold_left_app. Qed.

Lemma scan_row_fold (acc : refs) (r : row) :
  scan_row acc r =
  try ps <- row_pieces r;
  ret (Refs (add_all (whole "Unnamed: 3" r) (main_movements acc))
            (add_all ps (accessory_movements acc))
            (add_all (whole "Unnamed: 8" r) (workout_formats acc))
            (add_all (whole "Unnamed: 7" r) (intensity_levels acc))).
Proof.
  unfold scan_row, row_pieces. rewrite !add_whole_fold, add_split_fold.
  destruct (pieces "Unnamed: 5" r) as [e|p5]; simpl; [reflexivity|].
  rewrite add_split_fold.
  destruct (pieces "Unnamed: 9" r) as [e|p9]; simpl; [reflexivity|].
  rewrite add_all_app. reflexivity.
Qed.

Lemma foldM_app {A S : Type} (f : S -> A -> result S) (l1 l2 : list A) (s : S) :
  foldM f (l1 ++ l2) s = try s' <- foldM f l1 s; foldM f l2 s'.
Proof.
  revert s. induction l1 as [|a l1 IH]; intros s; simpl; [reflexivity|].
  destruct (f s a) as [e|s']; simpl; [reflexivity|]. apply IH.
Qed.

Lemma extract_rows (sheets_data : Py.dict (list row)) (acc : refs) :
  foldM (fun acc kv => foldM scan_row (snd kv) acc) sheets_data acc =
  foldM scan_row (rows_of sheets_data) acc.
Proof.
  revert acc. induction sheets_data as [|[name data] sd IH]; intros acc; [reflexivity|].
  unfold rows_of. simpl. rewrite foldM_app.
  destruct (foldM scan_row data acc) as [e|acc']; simpl; [reflexivity|]. apply IH.
Qed.

Lemma scan_rows_fold (rows : list row) (acc : refs) :
  foldM scan_row rows acc =
  try ps <- mapM row_pieces rows;
  ret (Refs (add_all (concat (map (whole "Unnamed: 3") rows)) (main_movements acc))
            (add_all (concat ps) (accessory_movements acc))
            (add_all (concat (map (whole "Unnamed: 8") rows)) (workout_formats acc))
            (add_all (concat (map (whole "Unnamed: 7") rows)) (intensity_levels acc))).
Proof.
  revert acc. induction rows as [|r rows IH]; intros acc.
  - destruct acc. reflexivity.
  - simpl. rewrite scan_row_fold.
    destruct (row_pieces r) as [e|p]; simpl; [reflexivity|].
    rewrite IH. simpl.
    destruct (mapM row_pieces rows) as [e|ps]; simpl; [reflexivity|].
    rewrite !add_all_app. reflexivity.
Qed.

(** The four sets are what [add] leaves of the values the rows offer, taken
    in row order. *)
Lemma extract_fold (sheets_data : Py.dict (list row)) :
  extract sheets_data =
  try ps <- mapM row_pieces (rows_of sheets_data);
  ret (Refs (add_all (concat (map (whole "Unnamed: 3") (rows_of sheets_data))) [])
            (add_all (concat ps) [])
            (add_all (concat (map (whole "Unnamed: 8") (rows_of sheets_data))) [])
            (add_all (concat (map (whole "Unnamed: 7") (rows_of sheets_data))) [])).
Proof. unfold extract. rewrite extract_rows. apply scan_rows_fold. Qed.

Lemma elem_of_concat {A : Type} (x : A) (ls : list (list A)) :
  x ∈ concat ls <-> exists l, x ∈ l /\ l ∈ ls.
Proof.
  induction ls as [|l ls IH]; simpl.
  - split; [intros H; inversion H|intros (l & _ & H); inversion H].
  - rewrite elem_of_app, IH. split.
    + intros [H|(l' & Hx & Hl)]; [exists l; split; [exact H|left]|].
      exists l'. split; [exact Hx|right; exact Hl].
    + intros (l' & Hx & Hl). apply elem_of_cons in Hl.
      destruct Hl as [->|Hl]; [left; exact Hx|right; exists l'; split; assumption].
Qed.

Lemma in_rows_of (sheets_data : Py.dict (list row)) (r : row) :
  r ∈ rows_of sheets_data <->
  exists name data, (name, data) ∈ sheets_data /\ r ∈ data.
Proof.
  unfold rows_of. rewrite elem_of_concat. split.
  - intros (data & Hr & Hd). apply list_elem_of_fmap in Hd.
    destruct Hd as ([name d] & -> & Hin). exists name, d. split; assumption.
  - intros (name & data & Hin & Hr). exists data. split; [exact Hr|].
    apply list_elem_of_fmap. exists (name, data). split; [reflexivity|exact Hin].
Qed.

Lemma mapM_ok {A B : Type} (f : A -> result B) (l : list A) (bs : list B) :
  mapM f l = ret bs -> Forall2 (fun a b => f a = ret b) l bs.
Proof.
  revert bs. induction l as [|a l IH]; simpl; intros bs H.
  - inversion H. constructor.
  - destruct (f a) as [e|b] eqn:Hfa; simpl in H; [discriminate|].
    destruct (mapM f l) as [e|bs'] eqn:Hl; simpl in H; [discriminate|].
    inversion H; subst. constructor; [exact Hfa|apply IH; reflexivity].
Qed.

Lemma mapM_map {A B : Type} (f : A -> result B) (g : A -> B) (l : list A) :
  (forall a, a ∈ l -> f a = ret (g a)) -> mapM f l = ret (map g l).
Proof.
  induction l as [|a l IH]; intros H; simpl; [reflexivity|].
  rewrite (H a) by left. simpl. rewrite IH; [reflexivity|].
  intros b Hb. apply H. right. exact Hb.
Qed.

End extraction.

(** ** What the sets hold *)

Section membership.

Lemma whole_spec (col : string) (r : row) (v : value) :
  v ∈ whole col r <-> Py.get col r = Some v /\ Py.truthy v = true.
Proof.
  unfold whole. destruct (Py.get col r) as [u|].
  - destruct (Py.truthy u) eqn:Hu.
    + rewrite list_elem_of_singleton. split.
      * intros ->. split; [reflexivity|exact Hu].
      * intros [H _]. congruence.
    + split; [intros H; inversion H|]. intros [H Hv]. congruence.
  - split; [intros H; inversion H|]. intros [H _]. discriminate.
Qed.

Lemma offered_spec (col : string) (rows : list row) (v : value) :
  v ∈ concat (map (whole col) rows) <->
  exists r, r ∈ rows /\ Py.get col r = Some v /\ Py.truthy v = true.
Proof.
  rewrite elem_of_concat. split.
  - intros (l & Hv & Hl). apply list_elem_of_fmap in Hl.
    destruct Hl as (r & -> & Hr). exists r. split; [exact Hr|].
    apply whole_spec. exact Hv.
  - intros (r & Hr & Hv). exists (whole col r). split; [apply whole_spec; exact Hv|].
    apply list_elem_of_fmap. exists r. split; [reflexivity|exact Hr].
Qed.

Lemma truthy_str (s : string) : Py.truthy (VStr s) = true <-> s <> "".
Proof.
  simpl. rewrite negb_true_iff. apply String.eqb_neq.
Qed.

Lemma pieces_spec (col : string) (r : row) (ps : list value) (x : value) :
  pieces col r = ret ps -> (x ∈ ps <-> piece_of col r x).
Proof.
  unfold pieces, piece_of. destruct (Py.get col r) as [v|].
  - destruct (Py.truthy v) eqn:Hv.
    + destruct v; simpl; try discriminate. intros H. inversion H; subst. clear H.
      apply truthy_str in Hv. rewrite list_elem_of_fmap. split.
      * intros (seg & -> & Hseg). exists s, seg. repeat split; assumption.
      * intros (s' & seg & Hs & _ & Hseg & ->). inversion Hs; subst.
        exists seg. split; [reflexivity|exact Hseg].
    + intros H. inversion H; subst. split; [intros Hx; inversion Hx|].
      intros (s & seg & Hs & Hne & _). inversion Hs; subst.
      apply truthy_str in Hne. congruence.
  - intros H. inversion H; subst. split; [intros Hx; inversion Hx|].
    intros (s & seg & Hs & _). discriminate.
Qed.

Lemma pieces_total (col : string) (r : row) :
  splittable col r = true -> exists ps, pieces col r = ret ps.
Proof.
  unfold splittable, pieces. destruct (Py.get col r) as [v|]; [|eexists; reflexivity].
  destruct (Py.truthy v); simpl; [|eexists; reflexivity].
  destruct v; simpl; try discriminate. eexists; reflexivity.
Qed.


Lemma row_pieces_total (r : row) :
  row_ok r = true -> exists ps, row_pieces r = ret ps.
Proof.
  unfold row_ok, row_pieces. intros H. apply andb_true_iff in H. destruct H as [H5 H9].
  destruct (pieces_total _ _ H5) as [p5 ->]. destruct (pieces_total _ _ H9) as [p9 ->].
  eexists; reflexivity.
Qed.


Lemma row_pieces_spec (r : row) (ps : list value) (x : value) :
  row_pieces r = ret ps ->
  (x ∈ ps <-> piece_of "Unnamed: 5" r x \/ piece_of "Unnamed: 9" r x).
Proof.
  unfold row_pieces.
  destruct (pieces "Unnamed: 5" r) as [e|p5] eqn:H5; simpl; [discriminate|].
  destruct (pieces "Unnamed: 9" r) as [e|p9] eqn:H9; simpl; [discriminate|].
  intros H. inversion H; subst. rewrite elem_of_app.
  rewrite (pieces_spec _ _ _ x H5), (pieces_spec _ _ _ x H9). reflexivity.
Qed.

Lemma all_pieces_spec (rows : list row) (ps : list (list value)) (x : value) :
  mapM row_pieces rows = ret ps ->
  (x ∈ concat ps <->
   exists r, r ∈ rows /\ (piece_of "Unnamed: 5" r x \/ piece_of "Unnamed: 9" r x)).
Proof.
  intros H. apply mapM_ok in H. induction H as [|r p rows ps Hr _ IH]; simpl.
  - split; [intros Hx; inversion Hx|intros (r & Hr & _); inversion Hr].
  - rewrite elem_of_app, IH, (row_pieces_spec r p x Hr). split.
    + intros [Hx|(r' & Hin & Hx)]; [exists r; split; [left|exact Hx]|].
      exists r'. split; [right; exact Hin|exact Hx].
    + intros (r' & Hin & Hx). apply elem_of_cons in Hin.
      destruct Hin as [->|Hin]; [left; exact Hx|].
      right. exists r'. split; assumption.
Qed.

Lemma all_pieces_total (rows : list row) :
  forallb row_ok rows = true -> exists ps, mapM row_pieces rows = ret ps.
Proof.
  induction rows as [|r rows IH]; simpl; intros H; [eexists; reflexivity|].
  apply andb_true_iff in H. destruct H as [Hr Hrows].
  destruct (row_pieces_total r Hr) as [p ->]. destruct (IH Hrows) as [ps ->].
  eexists; reflexivity.
Qed.


End membership.

(** ** Consequences for the four sets *)

Section sets.

Lemma extract_inv (sd : Py.dict (list row)) (found : refs) :
  extract sd = ret found ->
  exists ps,
    mapM row_pieces (rows_of sd) = ret ps /\
    main_movements found = add_all (concat (map (whole "Unnamed: 3") (rows_of sd))) [] /\
    accessory_movements found = add_all (concat ps) [] /\
    workout_formats found = add_all (concat (map (whole "Unnamed: 8") (rows_of sd))) [] /\
    intensity_levels found = add_all (concat (map (whole "Unnamed: 7") (rows_of sd))) [].
Proof.
  rewrite extract_fold.
  destruct (mapM row_pieces (rows_of sd)) as [e|ps]; simpl; [discriminate|].
  intros H. inversion H; subst. exists ps. repeat split; reflexivity.
Qed.

Lemma whole_held (col : string) (rows : list row) (r : row) (v : value) :
  r ∈ rows -> Py.get col r = Some v -> Py.truthy v = true ->
  exists e, e ∈ add_all (concat (map (whole col) rows)) [] /\ Py.eqb e v = true.
Proof.
  intros Hr Hg Ht. apply add_all_holds. apply offered_spec. exists r. auto.
Qed.

Lemma whole_source (col : string) (rows : list row) (e : value) :
  e ∈ add_all (concat (map (whole col) rows)) [] ->
  exists r, r ∈ rows /\ Py.get col r = Some e /\ Py.truthy e = true.
Proof.
  intros He. apply add_all_from in He. destruct He as [He|He]; [inversion He|].
  apply offered_spec. exact He.
Qed.


Lemma piece_held (rows : list row) (ps : list (list value)) (r : row) (x : value) :
  mapM row_pieces rows = ret ps -> r ∈ rows ->
  piece_of "Unnamed: 5" r x \/ piece_of "Unnamed: 9" r x ->
  x ∈ add_all (concat ps) [].
Proof.
  intros Hps Hr Hx.
  assert (Hin : x ∈ concat ps).
  { apply (all_pieces_spec rows ps x Hps). exists r. split; assumption. }
  destruct (add_all_holds (concat ps) [] x Hin) as (e & He & Heq).
  assert (Hstr : exists s, x = VStr s).
  { destruct Hx as [(s & seg & _ & _ & _ & ->)|(s & seg & _ & _ & _ & ->)]; eexists; reflexivity. }
  destruct Hstr as [s ->]. apply eqb_str in Heq. subst. exact He.
Qed.

Lemma piece_source (rows : list row) (ps : list (list value)) (x : value) :
  mapM row_pieces rows = ret ps -> x ∈ add_all (concat ps) [] ->
  exists r, r ∈ rows /\ (piece_of "Unnamed: 5" r x \/ piece_of "Unnamed: 9" r x).
Proof.
  intros Hps Hx. apply add_all_from in Hx. destruct Hx as [Hx|Hx]; [inversion Hx|].
  apply (all_pieces_spec rows ps x Hps). exact Hx.
Qed.

Lemma piece_trimmed (col : string) (r : row) (x : value) :
  piece_of col r x -> exists s, x = VStr s /\ Str.trimmed s = true.
Proof.
  intros (s & seg & _ & _ & _ & ->). eexists. split; [reflexivity|apply strip_trimmed].
Qed.

Lemma add_all_nil_distinct (l : list value) : distinct (add_all l []).
Proof. apply add_all_distinct. exact I. Qed.

End sets.

(** ** Trimming and duplicates (C3) *)

(** C3, as the code has it: every value stored in the accessory set is a
    string with no whitespace at either end; a value stored in the main
    movement, format or intensity set is the value of a cell of its column,
    as the cell holds it; and no set holds two equal values. *)
Theorem accessory_trimmed_sets_distinct (sd : Py.dict (list row)) (found : refs) :
  extract sd = ret found ->
  (forall v, v ∈ accessory_movements found ->
             exists s, v = VStr s /\ Str.trimmed s = true) /\
  (forall v, v ∈ main_movements found ->
             exists r, r ∈ rows_of sd /\ Py.get "Unnamed: 3" r = Some v) /\
  (forall v, v ∈ workout_formats found ->
             exists r, r ∈ rows_of sd /\ Py.get "Unnamed: 8" r = Some v) /\
  (forall v, v ∈ intensity_levels found ->
             exists r, r ∈ rows_of sd /\ Py.get "Unnamed: 7" r = Some v) /\
  (distinct (main_movements found) /\ distinct (accessory_movements found) /\
   distinct (workout_formats found) /\ distinct (intensity_levels found)) /\
  (NoDup (main_movements found) /\ NoDup (accessory_movements found) /\
   NoDup (workout_formats found) /\ NoDup (intensity_levels found)).
Proof.
  intros H. destruct (extract_inv sd found H) as (ps & Hps & Hm & Ha & Hf & Hl).
  rewrite Hm, Ha, Hf, Hl. repeat split.
  - intros v Hv. destruct (piece_source _ _ _ Hps Hv) as (r & _ & [Hp|Hp]);
      exact (piece_trimmed _ _ _ Hp).
  - intros v Hv. destruct (whole_source _ _ _ Hv) as (r & Hr & Hg & _). eauto.
  - intros v Hv. destruct (whole_source _ _ _ Hv) as (r & Hr & Hg & _). eauto.
  - intros v Hv. destruct (whole_source _ _ _ Hv) as (r & Hr & Hg & _). eauto.
  - apply add_all_nil_distinct.
  - apply add_all_nil_distinct.
  - apply add_all_nil_distinct.
  - apply add_all_nil_distinct.
  - apply distinct_NoDup, add_all_nil_distinct.
  - apply distinct_NoDup, add_all_nil_distinct.
  - apply distinct_NoDup, add_all_nil_distinct.
  - apply distinct_NoDup, add_all_nil_distinct.
Qed.

Lemma accessory_trimmed_sets_distinct_witness :
  forallb (fun v => match v with VStr s => Str.trimmed s | _ => false end)
          [VStr "Push-ups"; VStr "Burpees"] = true /\
  NoDup [VStr "Push-ups"; VStr "Burpees"].
Proof.
  pose proof (accessory_trimmed_sets_distinct
                (read_sheets accessory_pair)
                (Refs [VStr "Clean, Jerk"] [VStr "Push-ups"; VStr "Burpees"] [] [])
                eq_refl) as (_ & _ & _ & _ & _ & (_ & Hnd & _)).
  split; [reflexivity|exact Hnd].
Defined.

(** C3 as stated fails: a main movement cell with blanks around the text is
    stored with them. *)
Lemma main_value_kept_untrimmed :
  extract (read_sheets padded_main) = ret (Refs [VStr " Squat "] [] [] []) /\
  Str.trimmed " Squat " = false.
Proof. split; reflexivity. Qed.

(** ** Splitting (C5) *)



(** ** The columns the extraction reads (C4) *)

Section columns.

Lemma scan_row_view (acc : refs) (r r' : row) :
  view reference_columns r = view reference_columns r' ->
  scan_row acc r = scan_row acc r'.
Proof.
  unfold view, reference_columns. simpl. intros H.
  injection H as H3 H5 H9 H8 H7.
  unfold scan_row, add_whole, add_split. rewrite H3, H5, H9, H8, H7. reflexivity.
Qed.

Lemma cons_eq_inv {A : Type} (x y : A) (l k : list A) :
  x :: l = y :: k -> x = y /\ l = k.
Proof. intros H. injection H as -> ->. split; reflexivity. Qed.

Lemma scan_rows_view (rows rows' : list row) (acc : refs) :
  map (view reference_columns) rows = map (view reference_columns) rows' ->
  foldM scan_row rows acc = foldM scan_row rows' acc.
Proof.
  revert rows' acc. induction rows as [|r rows IH]; intros [|r' rows'] acc H;
    try discriminate; [reflexivity|].
  rewrite !map_cons in H. apply cons_eq_inv in H. destruct H as [Hr Hrows]. simpl.
  rewrite (scan_row_view acc r r' Hr).
  destruct (scan_row acc r') as [e|acc']; simpl; [reflexivity|]. apply IH. exact Hrows.
Qed.

Lemma extract_agree (sd sd' : Py.dict (list row)) :
  agree_on reference_columns sd sd' -> extract sd = extract sd'.
Proof.
  unfold agree_on, extract. intros H. rewrite !extract_rows.
  apply scan_rows_view. exact H.
Qed.

Lemma view_other (cols : list string) (col : string) (v : value) :
  col ∉ cols -> view cols [(col, v)] = view cols [].
Proof.
  induction cols as [|c cols IH]; intros Hn; [reflexivity|].
  rewrite not_elem_of_cons in Hn. destruct Hn as [Hc Hn].
  unfold view in *. rewrite !map_cons, (IH Hn). f_equal. simpl.
  destruct (String.eqb c col) eqn:E; [|reflexivity].
  apply String.eqb_eq in E. congruence.
Qed.

Lemma column_missing (cols : list string) :
  length cols < 5 -> exists col, col ∈ reference_columns /\ col ∉ cols.
Proof.
  intros Hlen.
  destruct (decide (Forall (fun c => c ∈ cols) reference_columns)) as [Hall|Hnot].
  - assert (Hsub : reference_columns ⊆+ cols).
    { apply NoDup_submseteq.
      - refine (bool_decide_unpack _ _). vm_compute. exact I.
      - intros x Hx. rewrite Forall_forall in Hall. apply Hall. exact Hx. }
    apply submseteq_length in Hsub. simpl in Hsub. lia.
  - apply not_Forall_Exists in Hnot; [|intros; apply _].
    apply Exists_exists in Hnot. destruct Hnot as (col & Hin & Hout).
    exists col. split; [exact Hin|exact Hout].
Qed.

Lemma column_matters (col : string) :
  col ∈ reference_columns -> extract (one_cell col) <> extract empty_row.
Proof.
  unfold reference_columns. intros Hin.
  repeat (apply elem_of_cons in Hin; destruct Hin as [->|Hin]; [discriminate|]).
  inversion Hin.
Qed.

End columns.

(** C4, as the code has it: the extraction reads five fixed column labels
    (two of them feed the accessory set). Sheets that agree in those five
    columns give the same four sets, and each of the five is read. Every row
    of every sheet is scanned: a non-empty cell of a whole-cell column, and
    every piece of a non-empty cell of an accessory column, is in its set;
    nothing else is in the sets, and no set holds a value twice. *)
Theorem extraction_reads_five_columns :
  (forall sd sd', agree_on reference_columns sd sd' -> extract sd = extract sd') /\
  length reference_columns = 5 /\
  (forall col, col ∈ reference_columns -> extract (one_cell col) <> extract empty_row) /\
  (forall sd found, extract sd = ret found ->
     (forall r v, r ∈ rows_of sd ->
        (Py.get "Unnamed: 3" r = Some v -> Py.truthy v = true ->
         exists e, e ∈ main_movements found /\ Py.eqb e v = true) /\
        (Py.get "Unnamed: 8" r = Some v -> Py.truthy v = true ->
         exists e, e ∈ workout_formats found /\ Py.eqb e v = true) /\
        (Py.get "Unnamed: 7" r = Some v -> Py.truthy v = true ->
         exists e, e ∈ intensity_levels found /\ Py.eqb e v = true) /\
        (piece_of "Unnamed: 5" r v \/ piece_of "Unnamed: 9" r v ->
         v ∈ accessory_movements found)) /\
     (forall v, v ∈ main_movements found ->
        exists r, r ∈ rows_of sd /\ Py.get "Unnamed: 3" r = Some v /\ Py.truthy v = true) /\
     (forall v, v ∈ workout_formats found ->
        exists r, r ∈ rows_of sd /\ Py.get "Unnamed: 8" r = Some v /\ Py.truthy v = true) /\
     (forall v, v ∈ intensity_levels found ->
        exists r, r ∈ rows_of sd /\ Py.get "Unnamed: 7" r = Some v /\ Py.truthy v = true) /\
     (forall v, v ∈ accessory_movements found ->
        exists r, r ∈ rows_of sd /\
                  (piece_of "Unnamed: 5" r v \/ piece_of "Unnamed: 9" r v)) /\
     distinct (main_movements found) /\ distinct (accessory_movements found) /\
     distinct (workout_formats found) /\ distinct (intensity_levels found)).
Proof.
  split; [exact extract_agree|]. split; [reflexivity|]. split; [exact column_matters|].
  intros sd found H.
  destruct (extract_inv sd found H) as (ps & Hps & Hm & Ha & Hf & Hl).
  rewrite Hm, Ha, Hf, Hl. split; [intros r v Hr|]; repeat split.
  - intros Hg Ht. exact (whole_held _ _ r v Hr Hg Ht).
  - intros Hg Ht. exact (whole_held _ _ r v Hr Hg Ht).
  - intros Hg Ht. exact (whole_held _ _ r v Hr Hg Ht).
  - intros Hp. exact (piece_held _ _ r v Hps Hr Hp).
  - apply whole_source.
  - apply whole_source.
  - apply whole_source.
  - intros v Hv. exact (piece_source _ _ v Hps Hv).
  - apply add_all_nil_distinct.
  - apply add_all_nil_distinct.
  - apply add_all_nil_distinct.
  - apply add_all_nil_distinct.
Qed.

Lemma extraction_reads_five_columns_witness :
  extract (one_cell "Unnamed: 9") = extract [("Other", [[("Unnamed: 9", VStr "x"); ("Day", VInt 1)]])].
Proof.
  apply (proj1 extraction_reads_five_columns). reflexivity.
Defined.

(** C4 as stated fails: no choice of four labels determines what the
    extraction collects. *)
Lemma four_labels_do_not_suffice :
  ~ exists c1 c2 c3 c4 : string,
      forall sd sd', agree_on [c1; c2; c3; c4] sd sd' -> extract sd = extract sd'.
Proof.
  intros (c1 & c2 & c3 & c4 & H).
  destruct (column_missing [c1; c2; c3; c4]) as (col & Hin & Hout); [simpl; lia|].
  apply (column_matters col Hin). apply H.
  change ([view [c1; c2; c3; c4] [(col, VStr "x")]] = [view [c1; c2; c3; c4] []]).
  rewrite (view_other _ col (VStr "x") Hout). reflexivity.
Qed.

(** ** The encoder *)

Section encoder.

Variable hook : pyobj -> result pyobj.

Lemma encode_list (fuel : nat) (l : list pyobj) :
  Json.encode hook fuel (PList l) =
  try items <- mapM (Json.encode hook fuel) l; ret (JArray items).
Proof. destruct fuel; reflexivity. Qed.

Lemma encode_dict (fuel : nat) (kv : list (value * pyobj)) :
  Json.encode hook fuel (PDict kv) =
  try members <-
    mapM (fun p => match p with
                   | (k, v) => try s <- Json.key k; try j <- Json.encode hook fuel v; ret (s, j)
                   end) kv;
  ret (JObject members).
Proof. destruct fuel; reflexivity. Qed.




End encoder.




(** ** Reading the sheets *)

Section reading.






End reading.

(** ** The document written *)

Section document.

Lemma encode_value (n : nat) (v : value) :
  Json.encode (fun x => ret (convert_for_json x)) (S n) (PVal v) = ret (json_of_value v).
Proof. destruct v; try reflexivity; destruct n; reflexivity. Qed.

Lemma encode_row (n : nat) (r : row) :
  Json.encode (fun x => ret (convert_for_json x)) (S n) (row_obj r) = ret (json_of_row r).
Proof.
  unfold row_obj, json_of_row. rewrite encode_dict.
  rewrite (mapM_map _ (fun p : value * pyobj =>
                         match p with
                         | (VStr k, PVal v) => (k, json_of_value v)
                         | _ => (""%string, JNull)
                         end)).
  - simpl. rewrite map_map. reflexivity.
  - intros [k v] Hin. apply list_elem_of_fmap in Hin. destruct Hin as ([k' v'] & Heq & _).
    injection Heq as -> ->. simpl Json.key. cbv beta iota delta [bind ret].
    rewrite encode_value. reflexivity.
Qed.

Lemma encode_sheets (n : nat) (sd : Py.dict (list row)) :
  Json.encode (fun x => ret (convert_for_json x)) (S n) (sheets_obj sd) =
  ret (json_of_sheets sd).
Proof.
  unfold sheets_obj, json_of_sheets. rewrite encode_dict.
  rewrite (mapM_map _ (fun p : value * pyobj =>
                         match p with
                         | (VStr k, PList l) =>
                             (k, JArray (map (fun o => match o with
                                                       | PDict kv =>
                                                           JObject (map (fun q : value * pyobj =>
                                                                           match q with
                                                                           | (VStr k, PVal v) => (k, json_of_value v)
                                                                           | _ => (""%string, JNull)
                                                                           end) kv)
                                                       | _ => JNull
                                                       end) l))
                         | _ => (""%string, JNull)
                         end)).
  - simpl. rewrite map_map. f_equal. f_equal. apply map_ext. intros [name rows]. simpl.
    f_equal. f_equal. rewrite map_map. apply map_ext. intros r.
    unfold row_obj, json_of_row. rewrite map_map. reflexivity.
  - intros [k v] Hin. apply list_elem_of_fmap in Hin. destruct Hin as ([name rows] & Heq & _).
    injection Heq as -> ->. simpl Json.key. cbv beta iota delta [bind ret fst snd].
    rewrite encode_list.
    rewrite (mapM_map _ (fun o => match o with
                                  | PDict kv =>
                                      JObject (map (fun q : value * pyobj =>
                                                      match q with
                                                      | (VStr k, PVal v) => (k, json_of_value v)
                                                      | _ => (""%string, JNull)
                                                      end) kv)
                                  | _ => JNull
                                  end)).
    + reflexivity.
    + intros o Ho. apply list_elem_of_fmap in Ho. destruct Ho as (r & -> & _).
      rewrite encode_row. unfold row_obj, json_of_row. rewrite map_map. reflexivity.
Qed.

(** [json.dump] never fails on [sheets_data]. *)
Lemma dump_sheets (sd : Py.dict (list row)) :
  Json.dump convert_for_json (sheets_obj sd) = ret (json_of_sheets sd).
Proof. unfold Json.dump. apply (encode_sheets 999). Qed.

End document.

(** ** Steps that leave a file alone *)

Section steps.

Lemma keeps_ret {A : Type} (p : string) (a : A) : keeps p (io_ret a).
Proof. intros w. reflexivity. Qed.

Lemma keeps_print (p line : string) : keeps p (print line).
Proof. intros w. reflexivity. Qed.

Lemma keeps_mkdir (p path : string) : keeps p (mkdir path).
Proof. intros w. reflexivity. Qed.

Lemma keeps_lift {A : Type} (p : string) (c : result A) : keeps p (lift c).
Proof. intros w. reflexivity. Qed.

Lemma keeps_with_open (p path : string) (body : string * result unit) :
  path <> p -> keeps p (with_open path body).
Proof. intros Hne w. unfold with_open, put. simpl. apply lookup_insert_ne. exact Hne. Qed.

Lemma keeps_bind {A B : Type} (p : string) (c : io A) (k : A -> io B) :
  keeps p c -> (forall a, keeps p (k a)) -> keeps p (io_bind c k).
Proof.
  intros Hc Hk w. unfold io_bind. specialize (Hc w).
  destruct (c w) as [w' [e|a]]; simpl in *; [exact Hc|].
  rewrite Hk. exact Hc.
Qed.

Lemma keeps_for_each {A : Type} (p : string) (l : list A) (body : A -> io unit) :
  (forall a, keeps p (body a)) -> keeps p (for_each l body).
Proof.
  intros Hb. induction l as [|a l IH]; simpl; [apply keeps_ret|].
  apply keeps_bind; [apply Hb|intros _; exact IH].
Qed.

(** What a step wrote stays when the steps after it leave the file alone. *)
Lemma bind_keeps_after {A B : Type} (p : string) (c : io A) (k : A -> io B) (w : world) :
  (forall a, keeps p (k a)) ->
  files (fst (io_bind c k w)) !! p = files (fst (c w)) !! p.
Proof.
  intros Hk. unfold io_bind. destruct (c w) as [w' [e|a]]; simpl; [reflexivity|].
  apply Hk.
Qed.

Lemma bind_returned {A B : Type} (c : io A) (k : A -> io B) (w w' : world) (a : A) :
  c w = (w', ret a) -> io_bind c k w = k a w'.
Proof. intros H. unfold io_bind. rewrite H. reflexivity. Qed.

Lemma for_each_print {A : Type} (f : A -> string) (l : list A) (w : world) :
  for_each l (fun a => print (f a)) w =
  (World (xlsx w) (files w) (dirs w) (stdout w ++ map f l), ret tt).
Proof.
  revert w. induction l as [|a l IH]; intros w; simpl.
  - rewrite app_nil_r. destruct w; reflexivity.
  - unfold io_bind. simpl. rewrite IH. simpl. rewrite <- app_assoc. reflexivity.
Qed.

End steps.

Ltac keeps_steps :=
  repeat first
    [ apply keeps_print | apply keeps_mkdir | apply keeps_lift | apply keeps_ret
    | apply keeps_with_open; discriminate
    | apply keeps_for_each; intros ?
    | apply keeps_bind; [|intros ?] ].

(** ** The JSON file *)

Section json_file.

(** Whatever happens later in the run, the JSON file holds the whole
    document. *)
Lemma json_written (w : world) (xl : excel) :
  xlsx w = Some xl ->
  files (fst (parse_workouts_excel w)) !! output_path =
  Some (Document (json_of_sheets (read_sheets xl))).
Proof.
  intros Hx. unfold parse_workouts_excel. rewrite Hx.
  rewrite bind_keeps_after by (intros; keeps_steps).
  rewrite dump_sheets. unfold dump_to, put. simpl. apply lookup_insert_eq.
Qed.



End json_file.

(** ** The missing workbook (C1) *)

(** C1: without workouts.xlsx the run prints one line that names the file
    and returns; no file is written or changed, the four output files
    included, and no directory is made. *)
Theorem missing_input_reported (w : world) :
  xlsx w = None ->
  parse_workouts_excel w =
    (World None (files w) (dirs w) (stdout w ++ ["Error: workouts.xlsx not found!"]),
     ret tt) /\
  Str.contains excel_path "Error: workouts.xlsx not found!" = true /\
  files (fst (parse_workouts_excel w)) = files w /\
  (forall p, p ∈ outputs -> files (fst (parse_workouts_excel w)) !! p = files w !! p).
Proof.
  intros Hx. unfold parse_workouts_excel. rewrite Hx. unfold print. rewrite Hx.
  repeat split.
Qed.

Lemma missing_input_reported_witness :
  parse_workouts_excel no_files =
    (World None ∅ ∅ ["Error: workouts.xlsx not found!"], ret tt) /\
  files (fst (parse_workouts_excel no_files)) !! output_path = None.
Proof.
  destruct (missing_input_reported no_files eq_refl) as (Hrun & _ & Hfiles & _).
  split; [exact Hrun|]. rewrite Hfiles. reflexivity.
Defined.

(** ** The shape of the document (C2) *)



(** ** Dates in the document (C6) *)



(** ** Empty cells (C7) *)



(** ** Sorting text *)

Section sorting.

Lemma compare_agrees (a b : string) :
  String.compare a b = OrdersEx.String_as_OT.compare a b.
Proof.
  revert b. induction a as [|c a IH]; intros [|d b]; reflexivity.
Qed.

Lemma compare_lt_trans (a b c : string) :
  String.compare a b = Lt -> String.compare b c = Lt -> String.compare a c = Lt.
Proof.
  rewrite !compare_agrees.
  exact (@transitivity _ _ (@StrictOrder_Transitive _ _ OrdersEx.String_as_OT.lt_strorder) a b c).
Qed.

Global Instance before_trans : Transitive before.
Proof.
  intros a b c. unfold before, String.ltb.
  destruct (String.compare a b) eqn:Hab; try discriminate.
  destruct (String.compare b c) eqn:Hbc; try discriminate.
  intros _ _. rewrite (compare_lt_trans a b c Hab Hbc). reflexivity.
Qed.

Lemma before_or_after (a b : string) :
  a <> b -> String.ltb a b = false -> before b a.
Proof.
  unfold before, String.ltb. intros Hne. rewrite (String.compare_antisym b a).
  destruct (String.compare a b) eqn:E; simpl; try discriminate; [|reflexivity].
  apply String.compare_eq_iff in E. contradiction.
Qed.

Lemma insert_sorted_strs (s : string) (ls : list string) :
  s ∉ ls ->
  exists ls',
    Py.insert_sorted (VStr s) (map VStr ls) = ret (map VStr ls') /\
    ls' ≡ₚ s :: ls /\
    (forall a, before a s -> HdRel before a ls -> HdRel before a ls') /\
    (Sorted before ls -> Sorted before ls').
Proof.
  induction ls as [|x ls IH]; intros Hs.
  - exists [s]. split; [reflexivity|]. split; [reflexivity|]. split.
    + intros a Ha _. constructor. exact Ha.
    + intros _. repeat constructor.
  - rewrite not_elem_of_cons in Hs. destruct Hs as [Hne Hs].
    simpl. destruct (String.ltb s x) eqn:E.
    + exists (s :: x :: ls). split; [reflexivity|]. split; [reflexivity|]. split.
      * intros a Ha _. constructor. exact Ha.
      * intros Hsorted. constructor; [exact Hsorted|]. constructor. exact E.
    + destruct (IH Hs) as (ls' & Hins & Hperm & Hhd & Hsorted).
      rewrite Hins. simpl. exists (x :: ls'). split; [reflexivity|]. split; [|split].
      * rewrite Hperm. apply Permutation_swap.
      * intros a _ Ha. inversion Ha; subst. constructor. assumption.
      * intros Hx. inversion Hx as [|? ? Hls Hxls]; subst.
        constructor; [apply Hsorted; exact Hls|].
        apply Hhd; [|exact Hxls]. apply before_or_after; [|exact E].
        intros Heq. apply Hne. exact Heq.
Qed.

Lemma sorted_strs (ls : list string) :
  NoDup ls ->
  exists ls',
    Py.sorted (map VStr ls) = ret (map VStr ls') /\ ls' ≡ₚ ls /\ Sorted before ls'.
Proof.
  induction 1 as [|s ls Hs Hnd IH].
  - exists []. repeat split; constructor.
  - destruct IH as (l' & Hsorted & Hperm & Hord). simpl. rewrite Hsorted. simpl.
    destruct (insert_sorted_strs s l') as (ls' & Hins & Hp & _ & Hs').
    { rewrite Hperm. exact Hs. }
    exists ls'. split; [exact Hins|]. split; [|apply Hs'; exact Hord].
    rewrite Hp, Hperm. reflexivity.
Qed.

Lemma strs_of (l : list value) :
  Forall (fun v => Py.is_str v = true) l -> exists ls, l = map VStr ls.
Proof.
  induction 1 as [|v l Hv _ [ls ->]]; [exists []; reflexivity|].
  destruct v; try discriminate. exists (s :: ls). reflexivity.
Qed.

(** [sorted] of a set of texts: the texts in ascending order. *)
Lemma sorted_text_set (s : list value) :
  Forall (fun v => Py.is_str v = true) s -> NoDup s ->
  exists l, Py.sorted s = ret (map VStr l) /\ lists_sorted l s.
Proof.
  intros Hstr Hnd. destruct (strs_of s Hstr) as [ls ->].
  assert (Hnd' : NoDup ls).
  { apply (NoDup_fmap_1 VStr). exact Hnd. }
  destruct (sorted_strs ls Hnd') as (l & Hsorted & Hperm & Hord).
  exists l. split; [exact Hsorted|]. split.
  - apply fmap_Permutation. exact Hperm.
  - apply Sorted_StronglySorted; [apply before_trans|exact Hord].
Qed.

Lemma bullets_text (l : list string) : bullets (map VStr l) = bullet_lines l.
Proof. unfold bullets, bullet_lines. rewrite map_map. reflexivity. Qed.

End sorting.

(** ** A run that completes *)

Section completion.

Lemma text_row_splittable (r : row) (col : string) :
  text_row r = true -> col ∈ reference_columns -> splittable col r = true.
Proof.
  unfold text_row. rewrite forallb_forall. intros H Hin. apply H.
  apply list_elem_of_In. exact Hin.
Qed.

Lemma text_row_ok (r : row) : text_row r = true -> row_ok r = true.
Proof.
  intros H. unfold row_ok.
  rewrite !(text_row_splittable r _ H) by (unfold reference_columns; set_solver).
  reflexivity.
Qed.

Lemma text_offered (col : string) (rows : list row) :
  col ∈ reference_columns -> forallb text_row rows = true ->
  Forall (fun v => Py.is_str v = true) (concat (map (whole col) rows)).
Proof.
  intros Hcol Hrows. apply Forall_forall. intros v Hv.
  apply offered_spec in Hv. destruct Hv as (r & Hr & Hg & Ht).
  rewrite forallb_forall in Hrows. apply list_elem_of_In in Hr.
  pose proof (text_row_splittable r col (Hrows r Hr) Hcol) as Hs.
  unfold splittable in Hs. rewrite Hg, Ht in Hs. exact Hs.
Qed.

Lemma add_all_strs (l : list value) :
  Forall (fun v => Py.is_str v = true) l ->
  Forall (fun v => Py.is_str v = true) (add_all l []).
Proof.
  intros Hl. apply Forall_forall. intros v Hv.
  apply add_all_from in Hv. destruct Hv as [Hv|Hv]; [inversion Hv|].
  rewrite Forall_forall in Hl. apply Hl. exact Hv.
Qed.

Lemma pieces_strs (rows : list row) (ps : list (list value)) :
  mapM row_pieces rows = ret ps -> Forall (fun v => Py.is_str v = true) (concat ps).
Proof.
  intros Hps. apply Forall_forall. intros v Hv.
  apply (all_pieces_spec rows ps v Hps) in Hv.
  destruct Hv as (r & _ & [(s & seg & _ & _ & _ & ->)|(s & seg & _ & _ & _ & ->)]);
    reflexivity.
Qed.

(** With text in the reference columns the extraction succeeds and every
    set holds text only. *)
Lemma text_sets (sd : Py.dict (list row)) :
  text_columns sd = true ->
  exists found,
    extract sd = ret found /\
    Forall (fun v => Py.is_str v = true) (main_movements found) /\
    Forall (fun v => Py.is_str v = true) (accessory_movements found) /\
    Forall (fun v => Py.is_str v = true) (workout_formats found) /\
    Forall (fun v => Py.is_str v = true) (intensity_levels found).
Proof.
  unfold text_columns. intros Ht.
  assert (Hok : forallb row_ok (rows_of sd) = true).
  { rewrite forallb_forall in *. intros r Hr. apply text_row_ok. apply Ht. exact Hr. }
  destruct (all_pieces_total _ Hok) as [ps Hps].
  rewrite extract_fold, Hps. simpl. eexists. split; [reflexivity|]. simpl.
  split; [|split; [|split]].
  - apply add_all_strs, text_offered; [unfold reference_columns; set_solver|exact Ht].
  - apply add_all_strs. exact (pieces_strs _ _ Hps).
  - apply add_all_strs, text_offered; [unfold reference_columns; set_solver|exact Ht].
  - apply add_all_strs, text_offered; [unfold reference_columns; set_solver|exact Ht].
Qed.

(** The world a run leaves when no step raises. *)
Lemma run_completes (w : world) (xl : excel) (found : refs) (mtext ftext ltext : string) :
  xlsx w = Some xl ->
  extract (read_sheets xl) = ret found ->
  movements_md (main_movements found) (accessory_movements found) = (mtext, ret tt) ->
  reference_md "# Workout Formats Reference" (workout_formats found) = (ftext, ret tt) ->
  reference_md "# Intensity Levels Reference" (intensity_levels found) = (ltext, ret tt) ->
  parse_workouts_excel w =
    (World (Some xl)
           (<[levels_path := Text ltext]>
              (<[formats_path := Text ftext]>
                 (<[movements_path := Text mtext]>
                    (<[output_path := Document (json_of_sheets (read_sheets xl))]> (files w)))))
           ({[docs_dir]} ∪ dirs w)
           (((stdout w ++ ["Successfully parsed Excel file and saved to workouts_data.json"])
               ++ [nl +:+ "Sheet contents summary:"])
              ++ map (fun kv => fst kv +:+ ": " +:+ Str.of_nat (length (snd kv)) +:+ " rows")
                     (read_sheets xl)
              ++ [nl +:+ "Extracted data saved to markdown files in docs/"]),
     ret tt).
Proof.
  intros Hx Hex Hm Hf Hl. unfold parse_workouts_excel. rewrite Hx.
  rewrite dump_sheets.
  erewrite bind_returned by reflexivity.
  erewrite bind_returned by reflexivity.
  erewrite bind_returned by reflexivity.
  erewrite bind_returned by apply for_each_print.
  erewrite bind_returned by (unfold lift; rewrite Hex; reflexivity).
  erewrite bind_returned by reflexivity.
  erewrite bind_returned by (unfold with_open; rewrite Hm; reflexivity).
  erewrite bind_returned by (unfold with_open; rewrite Hf; reflexivity).
  erewrite bind_returned by (unfold with_open; rewrite Hl; reflexivity).
  unfold print, put. simpl. rewrite Hx, <- !app_assoc. reflexivity.
Qed.

End completion.

(** ** Text in the reference columns *)

Lemma append_assoc (a b c : string) : (a +:+ b) +:+ c = a +:+ b +:+ c.
Proof.
  induction a as [|x a IH]; [reflexivity|].
  change (String x ((a +:+ b) +:+ c) = String x (a +:+ b +:+ c)). f_equal. exact IH.
Qed.

Lemma set_sorted (sd : Py.dict (list row)) (found : refs) :
  extract sd = ret found ->
  NoDup (main_movements found) /\ NoDup (accessory_movements found) /\
  NoDup (workout_formats found) /\ NoDup (intensity_levels found).
Proof.
  intros H. destruct (extract_inv sd found H) as (ps & _ & Hm & Ha & Hf & Hl).
  rewrite Hm, Ha, Hf, Hl.
  repeat split; apply distinct_NoDup, add_all_nil_distinct.
Qed.

(** When the reference columns hold text, the run completes and
    movements.md holds the heading, a "## Main Movements" section and then a
    "## Accessory/Finisher Movements" section, each listing its set once per
    value as a [- item] line in ascending lexicographic order; the formats
    and the intensity levels each have a file of their own with one such
    list. *)
Corollary markdown_text_lexicographic (w : world) (xl : excel) :
  xlsx w = Some xl -> text_columns (read_sheets xl) = true ->
  exists found mains accessories formats levels,
    extract (read_sheets xl) = ret found /\
    snd (parse_workouts_excel w) = ret tt /\
    lists_sorted mains (main_movements found) /\
    lists_sorted accessories (accessory_movements found) /\
    lists_sorted formats (workout_formats found) /\
    lists_sorted levels (intensity_levels found) /\
    files (fst (parse_workouts_excel w)) !! movements_path =
      Some (Text ("# Movements Reference" +:+ nl +:+ nl +:+
                  "## Main Movements" +:+ nl +:+ bullet_lines mains +:+ nl +:+
                  "## Accessory/Finisher Movements" +:+ nl +:+ bullet_lines accessories)) /\
    files (fst (parse_workouts_excel w)) !! formats_path =
      Some (Text ("# Workout Formats Reference" +:+ nl +:+ nl +:+ bullet_lines formats)) /\
    files (fst (parse_workouts_excel w)) !! levels_path =
      Some (Text ("# Intensity Levels Reference" +:+ nl +:+ nl +:+ bullet_lines levels)).
Proof.
  intros Hx Ht.
  destruct (text_sets _ Ht) as (found & Hex & Sm & Sa & Sf & Sl).
  destruct (set_sorted _ _ Hex) as (Nm & Na & Nf & Nl).
  destruct (sorted_text_set _ Sm Nm) as (mains & Hms & Lm).
  destruct (sorted_text_set _ Sa Na) as (accs & Has & La).
  destruct (sorted_text_set _ Sf Nf) as (fmts & Hfs & Lf).
  destruct (sorted_text_set _ Sl Nl) as (lvls & Hls & Ll).
  exists found, mains, accs, fmts, lvls.
  assert (Hrun := run_completes w xl found _ _ _ Hx Hex
                    ltac:(unfold movements_md; rewrite Hms, Has; unfold ret;
                          rewrite !bullets_text; reflexivity)
                    ltac:(unfold reference_md; rewrite Hfs; unfold ret;
                          rewrite bullets_text; reflexivity)
                    ltac:(unfold reference_md; rewrite Hls; unfold ret;
                          rewrite bullets_text; reflexivity)).
  rewrite Hrun. simpl fst. simpl snd. simpl files.
  split; [exact Hex|]. split; [reflexivity|].
  split; [exact Lm|]. split; [exact La|]. split; [exact Lf|]. split; [exact Ll|].
  split; [|split].
  - rewrite lookup_insert_ne by discriminate. rewrite lookup_insert_ne by discriminate.
    rewrite lookup_insert_eq. rewrite !append_assoc. reflexivity.
  - rewrite lookup_insert_ne by discriminate. rewrite lookup_insert_eq.
    rewrite !append_assoc. reflexivity.
  - rewrite lookup_insert_eq. rewrite !append_assoc. reflexivity.
Qed.

Example markdown_text_example :
  exists found mains accessories,
    extract (read_sheets demo) = ret found /\
    lists_sorted mains [VStr "Squat"; VStr "Deadlift"] /\
    lists_sorted accessories [VStr "Push-ups"; VStr "Burpees"] /\
    files (fst (parse_workouts_excel (with_workbook demo))) !! movements_path =
      Some (Text ("# Movements Reference" +:+ nl +:+ nl +:+
                  "## Main Movements" +:+ nl +:+ bullet_lines mains +:+ nl +:+
                  "## Accessory/Finisher Movements" +:+ nl +:+ bullet_lines accessories)) /\
    files (fst (parse_workouts_excel (with_workbook demo))) !! movements_path =
      Some (Text ("# Movements Reference" +:+ nl +:+ nl +:+
                  "## Main Movements" +:+ nl +:+
                  "- Deadlift" +:+ nl +:+ "- Squat" +:+ nl +:+ nl +:+
                  "## Accessory/Finisher Movements" +:+ nl +:+
                  "- Burpees" +:+ nl +:+ "- Push-ups" +:+ nl)).
Proof.
  destruct (markdown_text_lexicographic (with_workbook demo) demo eq_refl eq_refl)
    as (found & mains & accs & fmts & lvls & Hex & _ & Lm & La & _ & _ & Hfile & _).
  exists found, mains, accs.
  assert (Hf : found = Refs [VStr "Squat"; VStr "Deadlift"] [VStr "Push-ups"; VStr "Burpees"]
                            [VStr "AMRAP"] [VStr "Heavy"]).
  { assert (He : extract (read_sheets demo) =
                 ret (Refs [VStr "Squat"; VStr "Deadlift"] [VStr "Push-ups"; VStr "Burpees"]
                           [VStr "AMRAP"] [VStr "Heavy"])) by reflexivity.
    rewrite He in Hex. injection Hex as <-. reflexivity. }
  subst found. simpl in Lm, La.
  split; [reflexivity|]. split; [exact Lm|]. split; [exact La|]. split; [exact Hfile|].
  vm_compute. reflexivity.
Defined.

(** ** Running in a larger world *)

Section frame.

Lemma framed_ret {A : Type} (a : A) : framed (io_ret a).
Proof. intros w fs ds out. split; reflexivity. Qed.

Lemma framed_lift {A : Type} (c : result A) : framed (lift c).
Proof. intros w fs ds out. split; reflexivity. Qed.

Lemma framed_print (line : string) : framed (print line).
Proof.
  intros w fs ds out. split; [reflexivity|].
  unfold print, extend. simpl. rewrite app_assoc. reflexivity.
Qed.

Lemma framed_mkdir (path : string) : framed (mkdir path).
Proof.
  intros w fs ds out. split; [reflexivity|].
  unfold mkdir, extend. simpl. rewrite (assoc_L (∪)). reflexivity.
Qed.

Lemma put_extend (path : string) (c : content) (w : world)
      (fs : gmap string content) (ds : gset string) (out : list string) :
  put path c (extend w fs ds out) = extend (put path c w) fs ds out.
Proof. unfold put, extend. simpl. rewrite insert_union_l. reflexivity. Qed.

Lemma framed_with_open (path : string) (body : string * result unit) :
  framed (with_open path body).
Proof.
  intros w fs ds out. split; [reflexivity|].
  unfold with_open. rewrite put_extend. reflexivity.
Qed.

Lemma framed_dump_to (path : string) (encoded : result json) :
  framed (dump_to path encoded).
Proof.
  intros w fs ds out. unfold dump_to.
  destruct encoded as [e|doc]; (split; [reflexivity|]); rewrite put_extend; reflexivity.
Qed.

Lemma framed_bind {A B : Type} (c : io A) (k : A -> io B) :
  framed c -> (forall a, framed (k a)) -> framed (io_bind c k).
Proof.
  intros Hc Hk w fs ds out. destruct (Hc w fs ds out) as [Hx Hext].
  unfold io_bind. rewrite Hext. destruct (c w) as [w' [e|a]]; simpl in *.
  - split; [exact Hx|reflexivity].
  - destruct (Hk a w' fs ds out) as [Hx' Hext']. split; [congruence|].
    rewrite Hext'. reflexivity.
Qed.

Lemma framed_for_each {A : Type} (l : list A) (body : A -> io unit) :
  (forall a, framed (body a)) -> framed (for_each l body).
Proof.
  intros Hb. induction l as [|a l IH]; simpl; [apply framed_ret|].
  apply framed_bind; [apply Hb|intros _; exact IH].
Qed.

Ltac framed_steps :=
  repeat first
    [ apply framed_print | apply framed_mkdir | apply framed_lift
    | apply framed_with_open | apply framed_dump_to
    | apply framed_for_each; intros ?
    | apply framed_bind; [|intros ?] ].

Lemma framed_parse : framed parse_workouts_excel.
Proof.
  intros w fs ds out. unfold parse_workouts_excel.
  change (xlsx (extend w fs ds out)) with (xlsx w).
  destruct (xlsx w) as [xl|] eqn:Hx; rewrite <- Hx.
  - lazymatch goal with
    | |- _ /\ ?c (extend w fs ds out) = _ =>
        assert (Hc : framed c) by (cbv zeta; framed_steps)
    end.
    apply Hc.
  - apply framed_print.
Qed.

Lemma extend_bare (w : world) : extend (bare w) (files w) (dirs w) (stdout w) = w.
Proof.
  destruct w as [x f d s]. unfold extend, bare. simpl.
  rewrite (left_id_L ∅ (∪) f), (left_id_L ∅ (∪) d), app_nil_r. reflexivity.
Qed.

(** A run does, on top of what the world holds, what it does when only the
    workbook exists. *)
Lemma run_from_bare (w : world) :
  parse_workouts_excel w =
    (extend (fst (parse_workouts_excel (bare w))) (files w) (dirs w) (stdout w),
     snd (parse_workouts_excel (bare w))).
Proof.
  rewrite <- (extend_bare w) at 1. apply framed_parse.
Qed.

Lemma run_keeps_workbook (w : world) : xlsx (fst (parse_workouts_excel w)) = xlsx w.
Proof. apply (framed_parse w ∅ ∅ []). Qed.

End frame.

(** ** Runs that return *)

Section rerun.

Lemma bind_raised {A B : Type} (c : io A) (k : A -> io B) (w w' : world) (e : exn) :
  c w = (w', inl e) -> io_bind c k w = (w', inl e).
Proof. intros H. unfold io_bind. rewrite H. reflexivity. Qed.

(** A run that returns has passed every step. *)
Lemma completes_inv (w : world) (xl : excel) :
  xlsx w = Some xl -> snd (parse_workouts_excel w) = ret tt ->
  exists found mtext ftext ltext,
    extract (read_sheets xl) = ret found /\
    movements_md (main_movements found) (accessory_movements found) = (mtext, ret tt) /\
    reference_md "# Workout Formats Reference" (workout_formats found) = (ftext, ret tt) /\
    reference_md "# Intensity Levels Reference" (intensity_levels found) = (ltext, ret tt).
Proof.
  intros Hx. unfold parse_workouts_excel. rewrite Hx, dump_sheets.
  erewrite bind_returned by reflexivity.
  erewrite bind_returned by reflexivity.
  erewrite bind_returned by reflexivity.
  erewrite bind_returned by apply for_each_print.
  destruct (extract (read_sheets xl)) as [e|found] eqn:Hex.
  { erewrite bind_raised by reflexivity. discriminate. }
  erewrite bind_returned by reflexivity.
  erewrite bind_returned by reflexivity.
  destruct (movements_md (main_movements found) (accessory_movements found))
    as [mtext [e|[]]] eqn:Hm.
  { erewrite bind_raised by reflexivity. discriminate. }
  erewrite bind_returned by reflexivity.
  destruct (reference_md "# Workout Formats Reference" (workout_formats found))
    as [ftext [e|[]]] eqn:Hf.
  { erewrite bind_raised by reflexivity. discriminate. }
  erewrite bind_returned by reflexivity.
  destruct (reference_md "# Intensity Levels Reference" (intensity_levels found))
    as [ltext [e|[]]] eqn:Hl.
  { erewrite bind_raised by reflexivity. discriminate. }
  intros _. exists found, mtext, ftext, ltext. repeat split; assumption.
Qed.

Lemma completes_writes (w : world) (xl : excel) (p : string) :
  xlsx w = Some xl -> snd (parse_workouts_excel w) = ret tt -> p ∈ outputs ->
  is_Some (files (fst (parse_workouts_excel (bare w))) !! p).
Proof.
  intros Hx Hr Hp.
  assert (Hr' : snd (parse_workouts_excel (bare w)) = ret tt).
  { rewrite run_from_bare in Hr. exact Hr. }
  destruct (completes_inv (bare w) xl Hx Hr') as (found & mt & ft & lt & Hex & Hm & Hf & Hl).
  rewrite (run_completes (bare w) xl found mt ft lt Hx Hex Hm Hf Hl). simpl.
  unfold outputs in Hp.
  repeat (apply elem_of_cons in Hp; destruct Hp as [->|Hp];
          [rewrite ?lookup_insert_eq, ?(lookup_insert_ne _ _ _ _ ltac:(discriminate)),
                   ?lookup_insert_eq; eauto|]).
  inversion Hp.
Qed.

Lemma same_bare (w w' : world) : xlsx w = xlsx w' -> bare w = bare w'.
Proof. unfold bare. intros ->. reflexivity. Qed.

End rerun.


(** ** Cells that cannot be split (C10) *)

Section unsplittable.






End unsplittable.



(** ** Sorting values *)

Section ascending.

Lemma key_ltb_asym (a b : list Z) : Py.key_ltb a b = true -> Py.key_ltb b a = false.
Proof.
  revert b. induction a as [|x a IH]; intros [|y b]; simpl; try discriminate; try reflexivity.
  intros H. apply orb_true_iff in H. apply orb_false_iff.
  destruct H as [H|H].
  - apply Z.ltb_lt in H. split; [apply Z.ltb_ge; lia|].
    apply andb_false_iff. left. apply Z.eqb_neq. lia.
  - apply andb_true_iff in H. destruct H as [Heq H]. apply Z.eqb_eq in Heq. subst.
    split; [apply Z.ltb_irrefl|]. rewrite Z.eqb_refl. simpl. apply IH. exact H.
Qed.

Lemma Qlt_bool_asym (a b : Q) : negb (Qle_bool b a) = true -> negb (Qle_bool a b) = false.
Proof.
  rewrite negb_true_iff, negb_false_iff. intros H.
  apply Qle_bool_iff. apply Qlt_le_weak. apply Qnot_le_lt.
  intros Hle. apply Qle_bool_iff in Hle. congruence.
Qed.

(** [v < w] excludes [w < v], which then is no error either. *)
Lemma ltb_asym (v w : value) : Py.ltb v w = ret true -> Py.ltb w v = ret false.
Proof.
  destruct v, w; unfold Py.ltb; simpl; try discriminate;
    intros H; injection H as H; unfold ret; f_equal;
    try (apply Qlt_bool_asym; exact H).
  - apply compare_ltb_asym. exact H.
  - apply (key_ltb_asym (Py.datetime_key _) (Py.datetime_key _)). exact H.
  - apply (key_ltb_asym (Py.date_key _) (Py.date_key _)). exact H.
Qed.

Lemma insert_sorted_ascending (v : value) (l r : list value) :
  Py.insert_sorted v l = ret r ->
  r ≡ₚ v :: l /\
  (forall a, not_after a v -> HdRel not_after a l -> HdRel not_after a r) /\
  (Sorted not_after l -> Sorted not_after r).
Proof.
  revert r. induction l as [|w l IH]; intros r; simpl.
  - intros H. injection H as <-. split; [reflexivity|]. split.
    + intros a Ha _. constructor. exact Ha.
    + intros _. repeat constructor.
  - destruct (Py.ltb v w) as [e|[]] eqn:E; simpl; try discriminate.
    + intros H. injection H as <-. split; [reflexivity|]. split.
      * intros a Ha _. constructor. exact Ha.
      * intros Hs. constructor; [exact Hs|]. constructor. apply ltb_asym. exact E.
    + destruct (Py.insert_sorted v l) as [e|r'] eqn:Hins; simpl; try discriminate.
      intros H. injection H as <-.
      destruct (IH r' eq_refl) as (Hperm & Hhd & Hsorted). split; [|split].
      * rewrite Hperm. apply Permutation_swap.
      * intros a _ Ha. inversion Ha; subst. constructor. assumption.
      * intros Hs. inversion Hs as [|? ? Hl Hwl]; subst.
        constructor; [apply Hsorted; exact Hl|]. apply Hhd; [exact E|exact Hwl].
Qed.

(** What [sorted] returns lists its argument in ascending order. *)
Lemma sorted_ascending (s l : list value) : Py.sorted s = ret l -> lists_ascending l s.
Proof.
  revert l. induction s as [|v s IH]; intros l; simpl.
  - intros H. injection H as <-. split; [reflexivity|constructor].
  - destruct (Py.sorted s) as [e|r] eqn:Hs; simpl; try discriminate.
    intros H. destruct (IH r eq_refl) as [Hperm Hsorted].
    destruct (insert_sorted_ascending v r l H) as (Hp & _ & Hs').
    split; [rewrite Hp, Hperm; reflexivity|apply Hs'; exact Hsorted].
Qed.

End ascending.

(** ** The markdown files (C8) *)

Section markdown.





End markdown.




(** ** The order of a set does not matter *)

Section any_order.

Lemma ltb_returns_kind (v w : value) (b : bool) :
  Py.ltb v w = ret b -> kind_of v = kind_of w /\ kind_of v <> KNone.
Proof.
  destruct v, w; unfold Py.ltb; simpl; try discriminate; intros _; split;
    try reflexivity; discriminate.
Qed.

Lemma ltb_same_kind (v w : value) :
  kind_of v = kind_of w -> kind_of v <> KNone -> exists b, Py.ltb v w = ret b.
Proof.
  destruct v, w; unfold Py.ltb; simpl; try discriminate; try congruence;
    intros _ _; eexists; reflexivity.
Qed.

Lemma ltb_raises (v w : value) (e : exn) : Py.ltb v w = raise e -> e = TypeError.
Proof.
  destruct v, w; unfold Py.ltb; simpl; try discriminate; intros H; injection H as <-;
    reflexivity.
Qed.

Lemma key_ltb_trans (a b c : list Z) :
  Py.key_ltb a b = true -> Py.key_ltb b c = true -> Py.key_ltb a c = true.
Proof.
  revert b c. induction a as [|x a IH]; intros [|y b] [|z c]; simpl; try discriminate;
    try reflexivity.
  intros H1 H2. apply orb_true_iff in H1. apply orb_true_iff in H2. apply orb_true_iff.
  destruct H1 as [H1|H1], H2 as [H2|H2].
  - left. apply Z.ltb_lt in H1, H2. apply Z.ltb_lt. lia.
  - apply andb_true_iff in H2. destruct H2 as [E _]. apply Z.eqb_eq in E. subst. left. exact H1.
  - apply andb_true_iff in H1. destruct H1 as [E _]. apply Z.eqb_eq in E. subst. left. exact H2.
  - apply andb_true_iff in H1. apply andb_true_iff in H2.
    destruct H1 as [E1 H1], H2 as [E2 H2]. apply Z.eqb_eq in E1, E2. subst.
    right. rewrite Z.eqb_refl. simpl. exact (IH b c H1 H2).
Qed.

Lemma key_ltb_total (a b : list Z) :
  length a = length b -> Py.key_ltb a b = false -> Py.key_eqb a b = false ->
  Py.key_ltb b a = true.
Proof.
  revert b. induction a as [|x a IH]; intros [|y b]; simpl; try discriminate.
  intros Hlen H1 H2. injection Hlen as Hlen.
  apply orb_false_iff in H1. destruct H1 as [Hlt H1].
  apply Z.ltb_ge in Hlt. apply orb_true_iff.
  destruct (Z.eqb x y) eqn:E.
  - apply Z.eqb_eq in E. subst. right. rewrite Z.eqb_refl. simpl in *.
    apply IH; assumption.
  - left. apply Z.eqb_neq in E. apply Z.ltb_lt. lia.
Qed.

Lemma Qlt_bool_trans (a b c : Q) :
  negb (Qle_bool b a) = true -> negb (Qle_bool c b) = true -> negb (Qle_bool c a) = true.
Proof.
  rewrite !negb_true_iff. intros H1 H2.
  destruct (Qle_bool c a) eqn:E; [|reflexivity].
  apply Qle_bool_iff in E.
  assert (Hab : (a < b)%Q).
  { apply Qnot_le_lt. intros H. apply Qle_bool_iff in H. congruence. }
  assert (Hbc : (b < c)%Q).
  { apply Qnot_le_lt. intros H. apply Qle_bool_iff in H. congruence. }
  exfalso. apply (Qlt_irrefl a). apply (Qlt_le_trans a c a); [|exact E].
  apply (Qlt_trans a b c); assumption.
Qed.

Lemma Qlt_bool_total (a b : Q) :
  negb (Qle_bool b a) = false -> Qeq_bool a b = false -> negb (Qle_bool a b) = true.
Proof.
  rewrite negb_false_iff, negb_true_iff. intros H1 H2.
  destruct (Qle_bool a b) eqn:E; [|reflexivity].
  apply Qle_bool_iff in H1, E. assert (Heq : (a == b)%Q) by (apply Qle_antisym; assumption).
  apply Qeq_bool_iff in Heq. congruence.
Qed.

Global Instance below_trans : Transitive below.
Proof.
  intros a b c. unfold below.
  destruct a, b; unfold Py.ltb at 1; simpl; try discriminate;
    destruct c; unfold Py.ltb; simpl; try discriminate;
    intros H1 H2; injection H1 as H1; injection H2 as H2; unfold ret; f_equal;
    try exact (Qlt_bool_trans _ _ _ H1 H2).
  - exact (before_trans _ _ _ H1 H2).
  - exact (key_ltb_trans (Py.datetime_key _) (Py.datetime_key _) (Py.datetime_key _) H1 H2).
  - exact (key_ltb_trans (Py.date_key _) (Py.date_key _) (Py.date_key _) H1 H2).
Qed.

Lemma below_total (a b : value) :
  Py.ltb a b = ret false -> Py.eqb a b = false -> below b a.
Proof.
  unfold below.
  destruct a, b; unfold Py.ltb, Py.eqb; simpl; try discriminate;
    intros H1 H2; injection H1 as H1; unfold ret; f_equal;
    try exact (Qlt_bool_total _ _ H1 H2).
  - apply before_or_after; [|exact H1]. intros ->. rewrite String.eqb_refl in H2. discriminate.
  - apply (key_ltb_total (Py.datetime_key _) (Py.datetime_key _)); [reflexivity|exact H1|exact H2].
  - apply (key_ltb_total (Py.date_key _) (Py.date_key _)); [reflexivity|exact H1|exact H2].
Qed.

Global Instance below_antisym : AntiSymm (=) below.
Proof.
  intros a b H1 H2. unfold below in *. apply ltb_asym in H1. rewrite H1 in H2. discriminate.
Qed.

Lemma insert_sorted_strict (v : value) (l r : list value) :
  Py.insert_sorted v l = ret r ->
  Forall (fun y => Py.eqb v y = false) l ->
  (forall a, below a v -> HdRel below a l -> HdRel below a r) /\
  (Sorted below l -> Sorted below r).
Proof.
  revert r. induction l as [|w l IH]; intros r; simpl.
  - intros H _. injection H as <-. split.
    + intros a Ha _. constructor. exact Ha.
    + intros _. repeat constructor.
  - destruct (Py.ltb v w) as [e|[]] eqn:E; simpl; try discriminate.
    + intros H _. injection H as <-. split.
      * intros a Ha _. constructor. exact Ha.
      * intros Hs. constructor; [exact Hs|]. constructor. exact E.
    + destruct (Py.insert_sorted v l) as [e|r'] eqn:Hins; simpl; try discriminate.
      intros H Hd. injection H as <-. inversion Hd as [|? ? Hvw Hd']; subst.
      destruct (IH r' eq_refl Hd') as (Hhd & Hsorted). split.
      * intros a _ Ha. inversion Ha; subst. constructor. assumption.
      * intros Hs. inversion Hs as [|? ? Hl Hwl]; subst.
        constructor; [apply Hsorted; exact Hl|].
        apply Hhd; [|exact Hwl]. apply below_total; assumption.
Qed.

Lemma distinct_perm (s s' : list value) : s ≡ₚ s' -> distinct s -> distinct s'.
Proof.
  induction 1 as [|x l l' Hp IH|x y l|l1 l2 l3 H12 IH12 H23 IH23]; simpl.
  - auto.
  - intros [Hx Hd]. split; [rewrite <- Hp; exact Hx|apply IH; exact Hd].
  - intros [Hy [Hx Hd]]. inversion Hy as [|? ? Hyx Hyl]; subst.
    split; [constructor; [rewrite eqb_sym; exact Hyx|exact Hx]|].
    split; [exact Hyl|exact Hd].
  - auto.
Qed.

Lemma sorted_strict (s l : list value) :
  Py.sorted s = ret l -> distinct s -> StronglySorted below l.
Proof.
  intros Hs Hd. apply Sorted_StronglySorted; [apply below_trans|].
  revert l Hs. induction s as [|v s IH]; intros l; simpl.
  - intros H. injection H as <-. constructor.
  - destruct Hd as [Hv Hd]. destruct (Py.sorted s) as [e|r] eqn:Hr; simpl; try discriminate.
    intros H. destruct (sorted_ascending s r Hr) as [Hperm _].
    apply (insert_sorted_strict v r l H); [rewrite Hperm; exact Hv|].
    apply IH; [exact Hd|reflexivity].
Qed.

Lemma sorted_raises (s : list value) (e : exn) : Py.sorted s = raise e -> e = TypeError.
Proof.
  revert e. induction s as [|v s IH]; intros e; simpl; [discriminate|].
  destruct (Py.sorted s) as [e'|r]; simpl.
  - intros H. injection H as <-. apply IH. reflexivity.
  - clear IH. revert e. induction r as [|w r IH]; intros e; simpl; [discriminate|].
    destruct (Py.ltb v w) as [e'|[]] eqn:E; simpl.
    + intros H. injection H as <-. exact (ltb_raises _ _ _ E).
    + discriminate.
    + destruct (Py.insert_sorted v r) as [e'|r']; simpl; [|discriminate].
      intros H. injection H as <-. apply IH. reflexivity.
Qed.

Lemma insert_sorted_returns (v : value) (l : list value) :
  kind_of v <> KNone -> Forall (fun y => kind_of y = kind_of v) l ->
  exists r, Py.insert_sorted v l = ret r.
Proof.
  intros Hk. induction 1 as [|w l Hw _ [r IH]]; simpl; [eexists; reflexivity|].
  destruct (ltb_same_kind v w (eq_sym Hw) Hk) as [[] ->]; simpl; [eexists; reflexivity|].
  rewrite IH. simpl. eexists; reflexivity.
Qed.

Lemma sorted_returns (s : list value) : orderable s -> exists l, Py.sorted s = ret l.
Proof.
  intros [Hlen|(k & Hk & Hall)].
  - destruct s as [|v [|w s]]; simpl in Hlen; [eexists; reflexivity..|lia].
  - induction Hall as [|v s Hv Hs IH]; simpl; [eexists; reflexivity|].
    destruct IH as [r Hr]. rewrite Hr. simpl.
    apply insert_sorted_returns; [congruence|].
    destruct (sorted_ascending s r Hr) as [Hperm _]. rewrite Hperm.
    eapply Forall_impl; [exact Hs|]. intros y Hy. simpl in Hy. congruence.
Qed.

Lemma sorted_orderable (s l : list value) : Py.sorted s = ret l -> orderable s.
Proof.
  revert l. induction s as [|v s IH]; intros l; simpl.
  - intros _. left. simpl. lia.
  - destruct (Py.sorted s) as [e|r] eqn:Hr; simpl; [discriminate|].
    intros Hins. destruct (sorted_ascending s r Hr) as [Hperm _].
    destruct r as [|w r].
    + apply Permutation_nil_l in Hperm. subst. left. simpl. lia.
    + simpl in Hins. destruct (Py.ltb v w) as [e|b] eqn:E; simpl in Hins; [discriminate|].
      destruct (ltb_returns_kind v w b E) as [Hvw Hv].
      right. exists (kind_of v). split; [exact Hv|]. constructor; [reflexivity|].
      destruct (IH (w :: r) eq_refl) as [Hlen|(k & Hk & Hall)].
      * destruct s as [|y [|z s]]; simpl in Hlen; try lia.
        -- apply Permutation_nil_r in Hperm. discriminate.
        -- pose proof (Permutation_length Hperm) as Hl. simpl in Hl.
           destruct r; [|discriminate].
           apply Permutation_singleton_l in Hperm. injection Hperm as ->.
           constructor; [congruence|constructor].
      * assert (Hw : kind_of w = k).
        { rewrite Forall_forall in Hall. apply Hall. rewrite <- Hperm. left. }
        eapply Forall_impl; [exact Hall|]. intros y Hy. simpl in Hy. congruence.
Qed.

Lemma orderable_perm (s s' : list value) : s ≡ₚ s' -> orderable s -> orderable s'.
Proof.
  intros Hp [Hlen|(k & Hk & Hall)].
  - left. rewrite <- Hp. exact Hlen.
  - right. exists k. split; [exact Hk|]. rewrite <- Hp. exact Hall.
Qed.

(** The order in which a set hands its values to [sorted] does not matter. *)
Lemma sorted_any_order (s s' : list value) :
  s ≡ₚ s' -> distinct s -> Py.sorted s = Py.sorted s'.
Proof.
  intros Hp Hd.
  destruct (Py.sorted s) as [e|l] eqn:Hs, (Py.sorted s') as [e'|l'] eqn:Hs'.
  - rewrite (sorted_raises _ _ Hs), (sorted_raises _ _ Hs'). reflexivity.
  - destruct (sorted_returns s (orderable_perm s' s (symmetry Hp) (sorted_orderable _ _ Hs')))
      as [l Hl]. rewrite Hl in Hs. discriminate.
  - destruct (sorted_returns s' (orderable_perm s s' Hp (sorted_orderable _ _ Hs)))
      as [l0 Hl]. rewrite Hl in Hs'. discriminate.
  - f_equal. apply (StronglySorted_unique below).
    + exact (sorted_strict s l Hs Hd).
    + exact (sorted_strict s' l' Hs' (distinct_perm s s' Hp Hd)).
    + destruct (sorted_ascending s l Hs) as [H1 _].
      destruct (sorted_ascending s' l' Hs') as [H2 _]. rewrite H1, H2. exact Hp.
Qed.

End any_order.

(** ** Running twice (C9) *)

(** C9: a second run on the workbook of the first leaves every file as the
    first run left it and ends as the first did; two runs on the same
    workbook, whatever else their worlds hold, end alike, write the same
    JSON file and, when they return, the same four output files; and the
    order in which a set hands its values to [sorted], the one thing that can
    differ between two runs of the interpreter, shows in no file. *)
Theorem rerun_same_files :
  (forall w,
      files (fst (parse_workouts_excel (fst (parse_workouts_excel w))))
        = files (fst (parse_workouts_excel w)) /\
      dirs (fst (parse_workouts_excel (fst (parse_workouts_excel w))))
        = dirs (fst (parse_workouts_excel w)) /\
      snd (parse_workouts_excel (fst (parse_workouts_excel w)))
        = snd (parse_workouts_excel w)) /\
  (forall w w', xlsx w = xlsx w' ->
      snd (parse_workouts_excel w) = snd (parse_workouts_excel w') /\
      (forall xl, xlsx w = Some xl ->
          files (fst (parse_workouts_excel w)) !! output_path =
          files (fst (parse_workouts_excel w')) !! output_path) /\
      (forall xl p, xlsx w = Some xl -> snd (parse_workouts_excel w) = ret tt ->
          p ∈ outputs ->
          is_Some (files (fst (parse_workouts_excel w)) !! p) /\
          files (fst (parse_workouts_excel w)) !! p =
          files (fst (parse_workouts_excel w')) !! p)) /\
  (forall main main' accessory accessory' title,
      main ≡ₚ main' -> accessory ≡ₚ accessory' -> distinct main -> distinct accessory ->
      Py.sorted main = Py.sorted main' /\
      movements_md main accessory = movements_md main' accessory' /\
      reference_md title main = reference_md title main').
Proof.
  split; [|split].
  - intros w.
    assert (Hb : bare (fst (parse_workouts_excel (bare w))) = bare w).
    { apply same_bare. rewrite run_keeps_workbook. reflexivity. }
    assert (Hagain : parse_workouts_excel (fst (parse_workouts_excel (bare w))) =
                     (extend (fst (parse_workouts_excel (bare w)))
                             (files (fst (parse_workouts_excel (bare w))))
                             (dirs (fst (parse_workouts_excel (bare w))))
                             (stdout (fst (parse_workouts_excel (bare w)))),
                      snd (parse_workouts_excel (bare w)))).
    { rewrite run_from_bare, Hb. reflexivity. }
    rewrite (run_from_bare w). simpl fst. simpl snd.
    destruct (framed_parse (fst (parse_workouts_excel (bare w)))
                           (files w) (dirs w) (stdout w)) as [_ Hext].
    rewrite Hext, Hagain. simpl.
    rewrite (idemp_L (∪) (files _)), (idemp_L (∪) (dirs _)). repeat split.
  - intros w w' Hx. rewrite (run_from_bare w), (run_from_bare w'), (same_bare w w' Hx).
    simpl. split; [reflexivity|]. split.
    + intros xl Hxl.
      assert (Hj := json_written (bare w') xl ltac:(simpl; rewrite <- Hx; exact Hxl)).
      rewrite !lookup_union, Hj.
      destruct (files w !! output_path), (files w' !! output_path); reflexivity.
    + intros xl p Hxl Hr Hp.
      assert (Hr' : snd (parse_workouts_excel w') = ret tt).
      { rewrite run_from_bare. exact Hr. }
      destruct (completes_writes w' xl p ltac:(rewrite <- Hx; exact Hxl) Hr' Hp) as [c Hc].
      rewrite !lookup_union, Hc.
      destruct (files w !! p), (files w' !! p); (split; [eexists|]; reflexivity).
  - intros main main' accessory accessory' title Hm Ha Dm Da.
    unfold movements_md, reference_md.
    rewrite (sorted_any_order main main' Hm Dm),
            (sorted_any_order accessory accessory' Ha Da).
    repeat split.
Qed.

Lemma rerun_same_files_witness :
  files (fst (parse_workouts_excel (fst (parse_workouts_excel (with_workbook demo)))))
    = files (fst (parse_workouts_excel (with_workbook demo))) /\
  files (fst (parse_workouts_excel (with_workbook demo))) !! movements_path =
  files (fst (parse_workouts_excel
                (World (Some demo) {[movements_path := Text "old"]} ∅ ["earlier"])))
    !! movements_path.
Proof.
  destruct rerun_same_files as (Hagain & Hsame & _). split.
  - apply (Hagain (with_workbook demo)).
  - destruct (Hsame (with_workbook demo)
                    (World (Some demo) {[movements_path := Text "old"]} ∅ ["earlier"])
                    eq_refl) as (_ & _ & H).
    apply (H demo movements_path eq_refl); [reflexivity|].
    unfold outputs. right. left.
Defined.

(** * Further properties of the run *)

(** ** Where a run can stop *)

Section stops.

Lemma keeps_dump_to (p path : string) (encoded : result json) :
  path <> p -> keeps p (dump_to path encoded).
Proof.
  intros Hne w. unfold dump_to, put.
  destruct encoded; simpl; apply lookup_insert_ne; exact Hne.
Qed.










End stops.

(** ** The files a run touches (X1) *)

(** X1: a run writes to no path but its four output files: every other file
    is after the run what it was before. No file that exists is removed, and
    no directory is. *)
Theorem run_touches_only_outputs (w : world) (p : string) :
  p ∉ outputs ->
  files (fst (parse_workouts_excel w)) !! p = files w !! p /\
  (forall q, is_Some (files w !! q) -> is_Some (files (fst (parse_workouts_excel w)) !! q)) /\
  dirs w ⊆ dirs (fst (parse_workouts_excel w)).
Proof.
  intros Hp. split; [|split].
  - assert (Ho : output_path <> p) by (intros <-; apply Hp; unfold outputs; set_solver).
    assert (Hm : movements_path <> p) by (intros <-; apply Hp; unfold outputs; set_solver).
    assert (Hf : formats_path <> p) by (intros <-; apply Hp; unfold outputs; set_solver).
    assert (Hl : levels_path <> p) by (intros <-; apply Hp; unfold outputs; set_solver).
    unfold parse_workouts_excel. destruct (xlsx w) as [xl|]; [|reflexivity].
    lazymatch goal with
    | |- files (fst (?c w)) !! p = _ =>
        assert (Hc : keeps p c)
          by (cbv zeta;
              repeat first
                [ apply keeps_print | apply keeps_mkdir | apply keeps_lift
                | apply keeps_with_open; assumption
                | apply keeps_dump_to; assumption
                | apply keeps_for_each; intros ?
                | apply keeps_bind; [|intros ?] ])
    end.
    apply Hc.
  - intros q [c Hc]. rewrite run_from_bare. simpl.
    rewrite lookup_union, Hc.
    destruct (files (fst (parse_workouts_excel (bare w))) !! q); eexists; reflexivity.
  - rewrite run_from_bare. simpl. set_solver.
Qed.

Lemma run_touches_only_outputs_witness :
  files (fst (parse_workouts_excel
                (World (Some demo) {[ "notes.txt" := Text "keep" ]} ∅ []))) !! "notes.txt"
  = Some (Text "keep").
Proof.
  destruct (run_touches_only_outputs
              (World (Some demo) {[ "notes.txt" := Text "keep" ]} ∅ []) "notes.txt")
    as [H _].
  - unfold outputs. intros Hin.
    repeat (apply elem_of_cons in Hin; destruct Hin as [Hin|Hin]; [discriminate|]).
    inversion Hin.
  - rewrite H. reflexivity.
Defined.

(** ** What a run prints (X2) *)

Section report.


End report.



(** ** When a run returns (X3) *)



(** ** Sets that cannot be sorted (X4) *)



(** ** Pieces of accessory cells (X5, X6) *)

Section pieces.

Lemma split_no_sep (sep : ascii) (s : string) :
  Forall (fun seg => has_char sep seg = false) (Str.split sep s).
Proof.
  induction s as [|c r IH]; simpl; [repeat constructor|].
  destruct (Ascii.eqb c sep) eqn:E; [constructor; [reflexivity|exact IH]|].
  destruct (Str.split sep r) as [|h t]; [repeat constructor; simpl; rewrite E; reflexivity|].
  inversion IH as [|? ? Hh Ht]; subst. constructor; [|exact Ht].
  simpl. rewrite E, Hh. reflexivity.
Qed.

Lemma lstrip_no_char (c : ascii) (s : string) :
  has_char c s = false -> has_char c (Str.lstrip s) = false.
Proof.
  induction s as [|a r IH]; simpl; [reflexivity|]. intros H.
  apply orb_false_iff in H. destruct H as [Ha Hr].
  destruct (Str.isspace a); [apply IH; exact Hr|]. simpl. rewrite Ha, Hr. reflexivity.
Qed.

Lemma rstrip_no_char (c : ascii) (s : string) :
  has_char c s = false -> has_char c (Str.rstrip s) = false.
Proof.
  induction s as [|a r IH]; simpl; [reflexivity|]. intros H.
  apply orb_false_iff in H. destruct H as [Ha Hr]. specialize (IH Hr).
  destruct (Str.rstrip r) as [|b r'].
  - destruct (Str.isspace a); [reflexivity|]. simpl. rewrite Ha. reflexivity.
  - simpl. simpl in IH. rewrite Ha, IH. reflexivity.
Qed.

Lemma strip_no_char (c : ascii) (s : string) :
  has_char c s = false -> has_char c (Str.strip s) = false.
Proof. intros H. apply rstrip_no_char, lstrip_no_char. exact H. Qed.

Lemma rstrip_empty (s : string) : Str.rstrip s = "" <-> blank s = true.
Proof.
  induction s as [|a r IH]; simpl; [split; reflexivity|].
  destruct (Str.rstrip r) as [|b r'].
  - destruct IH as [IH _]. rewrite (IH eq_refl), andb_true_r.
    destruct (Str.isspace a); split; intros H; try reflexivity; discriminate.
  - split; [discriminate|]. intros H. apply andb_true_iff in H. destruct H as [_ H].
    apply IH in H. discriminate.
Qed.

Lemma lstrip_blank (s : string) : blank (Str.lstrip s) = blank s.
Proof.
  induction s as [|a r IH]; simpl; [reflexivity|].
  destruct (Str.isspace a) eqn:E; [exact IH|]. simpl. rewrite E. reflexivity.
Qed.

(** [strip] leaves nothing exactly of a text that is blank. *)
Lemma strip_empty (s : string) : Str.strip s = "" <-> blank s = true.
Proof. unfold Str.strip. rewrite rstrip_empty, lstrip_blank. reflexivity. Qed.

Lemma split_single_empty (sep : ascii) (s : string) : Str.split sep s = [""] -> s = "".
Proof.
  destruct s as [|c r]; simpl; [reflexivity|].
  destruct (Ascii.eqb c sep).
  - intros H. injection H as H. exfalso. exact (split_nonempty sep r H).
  - destruct (Str.split sep r); discriminate.
Qed.

(** A text that ends in the separator has an empty last piece. *)
Lemma split_trailing (sep : ascii) (s : string) :
  Str.last s = Some sep -> exists pre, Str.split sep s = pre ++ [""].
Proof.
  induction s as [|c r IH]; [discriminate|].
  destruct r as [|d r'].
  - simpl. intros H. injection H as ->. rewrite Ascii.eqb_refl. exists [""]. reflexivity.
  - intros H. change (Str.last (String d r') = Some sep) in H.
    destruct (IH H) as [pre Hpre].
    change (Str.split sep (String c (String d r')))
      with (if Ascii.eqb c sep then "" :: Str.split sep (String d r')
            else match Str.split sep (String d r') with
                 | [] => [String c ""]
                 | h :: t => String c h :: t
                 end).
    rewrite Hpre. destruct (Ascii.eqb c sep); [exists ("" :: pre); reflexivity|].
    destruct pre as [|p pre].
    + apply split_single_empty in Hpre. discriminate.
    + exists (String c p :: pre). reflexivity.
Qed.

End pieces.

(** X5: no value in the accessory set contains a comma: a cell is cut at
    every comma, and stripping a piece adds none. *)
Theorem accessory_values_have_no_comma
  (sd : Py.dict (list row)) (found : refs) (v : value) :
  extract sd = ret found -> v ∈ accessory_movements found ->
  exists s, v = VStr s /\ has_char "," s = false.
Proof.
  intros H Hv. destruct (extract_inv sd found H) as (ps & Hps & _ & Ha & _).
  rewrite Ha in Hv. destruct (piece_source _ _ _ Hps Hv) as (r & _ & Hp).
  assert (Hpiece : exists col, piece_of col r v) by (destruct Hp; eauto).
  destruct Hpiece as (col & s & seg & _ & _ & Hseg & ->).
  exists (Str.strip seg). split; [reflexivity|]. apply strip_no_char.
  pose proof (split_no_sep "," s) as Hall. rewrite Forall_forall in Hall.
  apply Hall. exact Hseg.
Qed.

Lemma accessory_values_have_no_comma_witness :
  exists s, VStr "Burpees" = VStr s /\ has_char "," s = false.
Proof.
  apply (accessory_values_have_no_comma
           (read_sheets accessory_pair)
           (Refs [VStr "Clean, Jerk"] [VStr "Push-ups"; VStr "Burpees"] [] [])
           (VStr "Burpees") eq_refl).
  right. left.
Defined.

(** X6: the accessory set holds the empty string exactly when some non-empty
    cell of an accessory column has a piece that is blank, as a cell does that
    ends in a comma, has two commas in a row, or is blank itself. *)
Theorem empty_accessory_iff_blank_piece (sd : Py.dict (list row)) (found : refs) :
  extract sd = ret found ->
  (VStr "" ∈ accessory_movements found <->
   exists r col s seg,
     r ∈ rows_of sd /\ (col = "Unnamed: 5" \/ col = "Unnamed: 9") /\
     Py.get col r = Some (VStr s) /\ s <> "" /\
     seg ∈ Str.split "," s /\ blank seg = true) /\
  (forall r col s,
     r ∈ rows_of sd -> col = "Unnamed: 5" \/ col = "Unnamed: 9" ->
     Py.get col r = Some (VStr s) -> Str.last s = Some ","%char ->
     VStr "" ∈ accessory_movements found).
Proof.
  intros H. destruct (extract_inv sd found H) as (ps & Hps & _ & Ha & _).
  rewrite Ha.
  assert (Hblank : forall r col s seg,
             r ∈ rows_of sd -> col = "Unnamed: 5" \/ col = "Unnamed: 9" ->
             Py.get col r = Some (VStr s) -> s <> "" ->
             seg ∈ Str.split "," s -> blank seg = true ->
             VStr "" ∈ add_all (concat ps) []).
  { intros r col s seg Hr Hcol Hg Hs Hseg Hb.
    apply (piece_held _ _ r _ Hps Hr).
    apply strip_empty in Hb.
    destruct Hcol as [-> | ->]; [left|right]; exists s, seg; rewrite Hb; auto. }
  split; [split|].
  - intros Hin. destruct (piece_source _ _ _ Hps Hin) as (r & Hr & Hp).
    assert (Hpiece : exists col, (col = "Unnamed: 5" \/ col = "Unnamed: 9") /\ piece_of col r (VStr ""))
      by (destruct Hp; eauto).
    destruct Hpiece as (col & Hcol & s & seg & Hg & Hs & Hseg & Heq).
    exists r, col, s, seg. repeat split; try assumption.
    apply strip_empty. congruence.
  - intros (r & col & s & seg & Hr & Hcol & Hg & Hs & Hseg & Hb).
    exact (Hblank r col s seg Hr Hcol Hg Hs Hseg Hb).
  - intros r col s Hr Hcol Hg Hlast.
    destruct (split_trailing "," s Hlast) as [pre Hpre].
    apply (Hblank r col s "" Hr Hcol Hg); [|rewrite Hpre|reflexivity].
    + intros ->. discriminate.
    + apply elem_of_app. right. left.
Qed.

Lemma empty_accessory_iff_blank_piece_witness :
  VStr "" ∈ [VStr "Push-ups"; VStr ""].
Proof.
  destruct (empty_accessory_iff_blank_piece
              (read_sheets trailing_comma) (Refs [] [VStr "Push-ups"; VStr ""] [] [])
              eq_refl) as [_ H].
  apply (H [("Unnamed: 5", VStr "Push-ups,")] "Unnamed: 5" "Push-ups,");
    [left|left; reflexivity|reflexivity|reflexivity].
Defined.

(** ** The order of the rows (X7) *)

Section row_order.






End row_order.



(** ** What the document keeps (X8) *)

Section lossless.





End lossless.


